(** * Fall_detection: the preprocessing and batching code, embedded and verified

    The development follows the two Python modules of the repository:

    - [preprocessor.py]: [process_accelerometer_data] (sliding windows over an
      accelerometer table, eight statistics per window) and
      [process_image_sequence] (directory resolution and frame sampling);
    - [dataloader.py]: the class [FallDetectionDataGenerator] ([__len__],
      [__getitem__], [on_epoch_end], [__data_generation]).

    Python values are modelled as the code has them: integers are [Z],
    [np.float64] is the kernel's binary64 [float], a raised exception is the
    [Raise] outcome of a small output-and-exception monad, [print] appends to
    the monad's output, the label dictionary is a [gmap], and the file system
    is an explicit tree. *)

From Stdlib Require Import ZArith List Bool Ascii String Lia Floats.
From stdpp Require Import base list gmap strings.

(** * Exceptions and printed output *)

Inductive exn : Set :=
| ValueError
| IndexError
| KeyError
| TypeError
| ParserError
| FileNotFoundError
| IsADirectoryError
| NotADirectoryError
| cv2_error
| ZeroDivisionError.

Inductive result (A : Type) : Type :=
| Ok (a : A)
| Raise (e : exn).
Arguments Ok {A} a.
Arguments Raise {A} e.

(** A run of Python code: what it printed, and how it ended. *)
Record py (A : Type) : Type := Py { stdout : list string; outcome : result A }.
Arguments Py {A} stdout outcome.
Arguments stdout {A} p.
Arguments outcome {A} p.

#[global] Instance py_ret : MRet py := λ A a, Py [] (Ok a).
#[global] Instance py_bind : MBind py := λ A B f m,
  match outcome m with
  | Ok a => Py (stdout m ++ stdout (f a)) (outcome (f a))
  | Raise e => Py (stdout m) (Raise e)
  end.

Definition raise {A : Type} (e : exn) : py A := Py [] (Raise e).
Definition print (s : string) : py unit := Py [s] (Ok tt).
Definition lift {A : Type} (r : result A) : py A := Py [] r.

(** [for x in xs: body], stopping at the first exception. *)
Fixpoint for_each {A S : Type} (xs : list A) (body : A → S → py S) (s : S) : py S :=
  match xs with
  | [] => mret s
  | x :: xs' => s' ← body x s; for_each xs' body s'
  end.

(** * Python and NumPy primitives *)

Module Py.

(** [range(start, stop, step)] as the interpreter iterates it: from [start],
    adding [step], while the bound has not been reached. The fuel is the
    distance to the bound, which every iteration reduces by at least one. *)
Fixpoint range_from (fuel : nat) (i stop step : Z) : list Z :=
  match fuel with
  | O => []
  | S fuel' =>
      if (if (0 <? step)%Z then (i <? stop)%Z else (stop <? i)%Z)
      then i :: range_from fuel' (i + step)%Z stop step
      else []
  end.

Definition range (start stop step : Z) : result (list Z) :=
  if (step =? 0)%Z then Raise ValueError
  else Ok (range_from (Z.to_nat (Z.abs (stop - start))) start stop step).

(** Slice bounds are clamped as [PySlice_AdjustIndices] does for step 1. *)
Definition adjust_index (len i : Z) : Z :=
  if (i <? 0)%Z then Z.max 0 (i + len) else Z.min i len.

(** [l[lo:hi]]. *)
Definition slice {A : Type} (l : list A) (lo hi : Z) : list A :=
  let len := Z.of_nat (length l) in
  let lo' := adjust_index len lo in
  let hi' := adjust_index len hi in
  take (Z.to_nat (hi' - lo')) (drop (Z.to_nat lo') l).

(** [l[i]] for a non-negative index; out of range raises [IndexError]. *)
Definition getitem {A : Type} (l : list A) (i : Z) : result A :=
  let len := Z.of_nat (length l) in
  let i' := if (i <? 0)%Z then (i + len)%Z else i in
  if ((i' <? 0) || (len <=? i'))%Z then Raise IndexError
  else match l !! Z.to_nat i' with
       | Some a => Ok a
       | None => Raise IndexError
       end.

(** [str.lower] on ASCII letters. *)
Definition lower_ascii (c : ascii) : ascii :=
  let n := nat_of_ascii c in
  if (65 <=? n)%nat && (n <=? 90)%nat then ascii_of_nat (n + 32) else c.

Fixpoint lower (s : string) : string :=
  match s with
  | EmptyString => EmptyString
  | String c s' => String (lower_ascii c) (lower s')
  end.

(** [s.startswith(p)]. *)
Fixpoint startswith (s p : string) : bool :=
  match p, s with
  | EmptyString, _ => true
  | String c p', String d s' => Ascii.eqb c d && startswith s' p'
  | String _ _, EmptyString => false
  end.

(** [p in s] for strings. *)
Fixpoint contains (s p : string) : bool :=
  startswith s p ||
  match s with
  | EmptyString => false
  | String _ s' => contains s' p
  end.

(** [s.endswith(p)]. *)
Fixpoint endswith (s p : string) : bool :=
  String.eqb s p ||
  match s with
  | EmptyString => false
  | String _ s' => endswith s' p
  end.

(** [s.endswith((p1, p2, ...))]. *)
Definition endswith_any (s : string) (ps : list string) : bool :=
  existsb (endswith s) ps.

(** [sorted(l)] on keyed strings: a stable insertion sort by code unit order. *)
Fixpoint insert_sorted {A : Type} (key : A → string) (x : A) (l : list A) : list A :=
  match l with
  | [] => [x]
  | y :: l' =>
      if String.ltb (key x) (key y) then x :: y :: l'
      else y :: insert_sorted key x l'
  end.

Definition sorted {A : Type} (key : A → string) (l : list A) : list A :=
  foldr (insert_sorted key) [] l.

End Py.

(** * Binary64 arithmetic as NumPy and pandas use it *)

Module F64.

Definition of_Z (z : Z) : float := PrimFloat.of_uint63 (Uint63.of_Z z).
Definition of_nat (n : nat) : float := of_Z (Z.of_nat n).

(** [x ** 2] is evaluated as a square. *)
Definition square (x : float) : float := PrimFloat.mul x x.

(** [np.add.reduce] over a one-dimensional array: the first element, then
    the others added from left to right (the empty sum is 0). This is the
    loop NumPy runs on short arrays; on long ones it adds by blocks, which
    can change the last bits of a sum and nothing else. *)
Definition reduce_add (xs : list float) : float :=
  match xs with
  | [] => PrimFloat.zero
  | x :: xs' => fold_left PrimFloat.add xs' x
  end.

(** pandas masks the missing values (NaN) of a [Series] before reducing it. *)
Definition notna (xs : list float) : list float :=
  List.filter (λ v, negb (PrimFloat.is_nan v)) xs.

Definition fill0 (xs : list float) : list float :=
  map (λ v, if PrimFloat.is_nan v then PrimFloat.zero else v) xs.

(** [Series.mean()] ([nanops.nanmean]): the sum of the present values over
    their count, NaN when there is none. *)
Definition mean (xs : list float) : float :=
  let count := length (notna xs) in
  if (count =? 0)%nat then PrimFloat.nan
  else PrimFloat.div (reduce_add (fill0 xs)) (of_nat count).

(** [Series.var(ddof)] ([nanops.nanvar]): when the count does not exceed
    [ddof], count and divisor are both set to NaN; otherwise the divisor is
    [count - ddof]. *)
Definition var (ddof : nat) (xs : list float) : float :=
  let n := length (notna xs) in
  let count := if (n <=? ddof)%nat then PrimFloat.nan else of_nat n in
  let d := if (n <=? ddof)%nat then PrimFloat.nan
           else PrimFloat.sub (of_nat n) (of_nat ddof) in
  let avg := PrimFloat.div (reduce_add (fill0 xs)) count in
  let sqr := map (λ v, if PrimFloat.is_nan v then PrimFloat.zero
                       else square (PrimFloat.sub avg v)) xs in
  PrimFloat.div (reduce_add sqr) d.

(** [Series.std()]: the default [ddof] is 1 (the sample definition). *)
Definition std (xs : list float) : float := PrimFloat.sqrt (var 1 xs).

(** Elementwise sum of two rows of a two-dimensional array. *)
Definition row_add (a b : list float) : list float := zip_with PrimFloat.add a b.

(** [np.mean(a, axis=0)] for a non-empty two-dimensional array given by its
    rows: the rows are added up one after the other, then divided by their
    number. *)
Definition mean_axis0 (rows : list (list float)) : list float :=
  match rows with
  | [] => []
  | r :: rows' =>
      map (λ s, PrimFloat.div s (of_nat (length rows))) (fold_left row_add rows' r)
  end.

(** The largest sample count for which the divisor [count - 1] of [std]
    was checked by evaluation. *)
Definition checked_counts : Z := 65536.

(** Whether [p] holds of the [fuel] integers from [z] on. *)
Fixpoint all_from (fuel : nat) (z : Z) (p : Z → bool) : bool :=
  match fuel with
  | O => true
  | S fuel' => p z && all_from fuel' (z + 1)%Z p
  end.

(** Whether the divisor [count - 1] is a positive number for every count
    from 2 up to [bound]. *)
Definition divisors_positive (bound : Z) : bool :=
  all_from (Z.to_nat (bound - 1)) 2
    (λ z, PrimFloat.ltb PrimFloat.zero (PrimFloat.sub (of_Z z) (of_Z 1))).

(** The floor of a finite number as an integer ([np.floor] followed by a
    cast); 0 stands for the casts of infinities and NaN, which the code
    never forms. *)
Definition floor_Z (x : float) : Z :=
  match Prim2SF x with
  | S754_finite false m e =>
      if (0 <=? e)%Z then (Z.pos m * 2 ^ e)%Z else (Z.pos m / 2 ^ (- e))%Z
  | S754_finite true m e =>
      if (0 <=? e)%Z then (- (Z.pos m * 2 ^ e))%Z
      else (- ((Z.pos m + 2 ^ (- e) - 1) / 2 ^ (- e)))%Z
  | _ => 0%Z
  end.

(** [np.zeros(n)]. *)
Definition zeros (n : nat) : list float := replicate n PrimFloat.zero.

End F64.

(** * Tables, images and the file system *)

(** A column read by [pd.read_csv] is numeric ([float64]) or holds text
    ([object]). *)
Inductive column : Type :=
| NumCol (v : list float)
| ObjCol (v : list string).

(** A [DataFrame]: the length of its index and its labelled columns, in file
    order. *)
Record DataFrame : Type := { nrows : nat; columns : list (string * column) }.

Definition column_length (c : column) : nat :=
  match c with
  | NumCol v => length v
  | ObjCol v => length v
  end.

(** Every column has one cell per row. *)
Definition wf_frame (df : DataFrame) : Prop :=
  Forall (λ c, column_length c.2 = nrows df) (columns df).

(** A decoded image; [cv2.imread] always yields three colour channels. *)
Record image : Type := { im_height : nat; im_width : nat; im_pixels : list Z }.

(** What a file holds, as its reader decodes it. *)
Inductive blob : Type :=
| CsvText (df : DataFrame)
| ImageData (im : image)
| Garbage.

#[warnings="-register-all"]
Inductive node : Type :=
| File (b : blob)
| Dir (entries : list (string * node)).

(** A path is the list of its components; [os.path.join] appends. *)
Definition path : Type := list string.

Definition path_str (p : path) : string := String.concat "/" p.

Definition join (p : path) (names : list string) : path := p ++ names.

Definition find_entry (name : string) (entries : list (string * node)) : option node :=
  snd <$> List.find (λ e, String.eqb e.1 name) entries.

Fixpoint resolve (fs : node) (p : path) {struct p} : option node :=
  match p with
  | [] => Some fs
  | name :: p' =>
      match fs with
      | Dir entries =>
          match find_entry name entries with
          | Some n => resolve n p'
          | None => None
          end
      | File _ => None
      end
  end.

Module os.

Definition exists_ (fs : node) (p : path) : bool :=
  match resolve fs p with
  | Some _ => true
  | None => false
  end.

Definition isdir (fs : node) (p : path) : bool :=
  match resolve fs p with
  | Some (Dir _) => true
  | _ => false
  end.

Definition listdir (fs : node) (p : path) : result (list string) :=
  match resolve fs p with
  | Some (Dir entries) => Ok (map fst entries)
  | Some (File _) => Raise NotADirectoryError
  | None => Raise FileNotFoundError
  end.

End os.

Module pd.

(** [pd.read_csv(path)]: the table the file holds, or the reader's error. *)
Definition read_csv (fs : node) (p : path) : result DataFrame :=
  match resolve fs p with
  | Some (File (CsvText df)) => Ok df
  | Some (File _) => Raise ParserError
  | Some (Dir _) => Raise IsADirectoryError
  | None => Raise FileNotFoundError
  end.

(** [df[names]]: for each label, the columns that carry it. *)
Definition select (cols : list (string * column)) (names : list string)
  : list (string * column) :=
  flat_map (λ n, List.filter (λ c, String.eqb c.1 n) cols) names.

(** [df.columns = names]: a length mismatch raises [ValueError]. *)
Definition set_columns (cols : list (string * column)) (names : list string)
  : result (list (string * column)) :=
  if (length cols =? length names)%nat then Ok (zip names (map snd cols))
  else Raise ValueError.

(** [df[name]] for one label. *)
Definition getitem (cols : list (string * column)) (name : string) : result column :=
  match List.find (λ c, String.eqb c.1 name) cols with
  | Some c => Ok c.2
  | None => Raise KeyError
  end.

(** The values of a column entering arithmetic: text cells raise
    [TypeError]. *)
Definition values (c : column) : result (list float) :=
  match c with
  | NumCol v => Ok v
  | ObjCol [] => Ok []
  | ObjCol (_ :: _) => Raise TypeError
  end.

End pd.

Module cv2.

(** [cv2.imread(path)]: [None] when the file is missing or cannot be decoded. *)
Definition imread (fs : node) (p : path) : option image :=
  match resolve fs p with
  | Some (File (ImageData im)) => Some im
  | _ => None
  end.

(** A frame after [cv2.resize(frame, target_size)] and
    [frame.astype('float32') / 255.0]: the codec is a black box, so the
    frame records its source image and the size it was resized to
    ([target_size] is (width, height)). *)
Record frame : Type := { fr_source : image; fr_width : Z; fr_height : Z }.

Definition resize (src : option image) (target_size : Z * Z) : result frame :=
  match src with
  | None => Raise cv2_error
  | Some im =>
      if ((0 <? target_size.1) && (0 <? target_size.2))%Z
         && (0 <? im_height im)%nat && (0 <? im_width im)%nat
      then Ok {| fr_source := im; fr_width := target_size.1; fr_height := target_size.2 |}
      else Raise cv2_error
  end.

(** The shape of the array holding a frame: (height, width, 3). *)
Definition frame_shape (f : frame) : list Z := [fr_height f; fr_width f; 3%Z].

End cv2.

Module np.

(** [np.linspace(0, stop, num, dtype=int)]: sample [i] of [num] is
    [i * stop / (num - 1)], the last one is [stop] itself, and the cast to
    integers takes the floor. The samples are taken as exact rationals (the
    binary64 product NumPy forms can fall just below an integer it should
    reach). *)
Definition sample (stop num : Z) (i : nat) : Z :=
  if (1 <? num)%Z && (Z.of_nat i =? num - 1)%Z then stop
  else (Z.of_nat i * stop / (num - 1))%Z.

Definition linspace_int (stop num : Z) : result (list Z) :=
  if (num <? 0)%Z then Raise ValueError
  else Ok (map (sample stop num) (seq 0 (Z.to_nat num))).

(** The same call evaluated in binary64 as [numpy.linspace] does it:
    [step = stop / (num - 1)], sample [i] is [i * step] (or
    [i / (num - 1) * stop] when the step underflows to 0), the last sample is
    overwritten by [stop], and [np.floor] precedes the cast. *)
Definition sample_f64 (stop num : Z) (i : nat) : Z :=
  let delta := F64.of_Z stop in
  let div := F64.of_Z (num - 1) in
  let step := PrimFloat.div delta div in
  if (1 <? num)%Z && (Z.of_nat i =? num - 1)%Z then F64.floor_Z delta
  else if (0 <? num - 1)%Z then
    if PrimFloat.eqb step PrimFloat.zero
    then F64.floor_Z (PrimFloat.mul (PrimFloat.div (F64.of_nat i) div) delta)
    else F64.floor_Z (PrimFloat.mul (F64.of_nat i) step)
  else F64.floor_Z (PrimFloat.mul (F64.of_nat i) delta).

Definition linspace_f64 (stop num : Z) : list Z :=
  map (sample_f64 stop num) (seq 0 (Z.to_nat num)).

(** What the frame selection needs of the indices: there are [num] of them,
    they never decrease, they stay within [0, stop], the first is 0 and,
    for two samples or more, the last is [stop]. *)
Fixpoint nondecreasing (l : list Z) : bool :=
  match l with
  | a :: (b :: _) as l' => (a <=? b)%Z && nondecreasing l'
  | _ => true
  end.

Definition well_spaced (stop num : Z) (l : list Z) : bool :=
  (Z.of_nat (length l) =? num)%Z
  && nondecreasing l
  && forallb (λ i, (0 <=? i)%Z && (i <=? stop)%Z) l
  && match l with i :: _ => (i =? 0)%Z | [] => true end
  && ((num <=? 1)%Z || match last l with Some i => (i =? stop)%Z | None => false end).

(** The shape of [np.array(l)] for a list of arrays of one shape; the empty
    list gives shape (0,). *)
Definition array_shape {A : Type} (item_shape : A → list Z) (l : list A) : list Z :=
  match l with
  | [] => [0%Z]
  | a :: _ => Z.of_nat (length l) :: item_shape a
  end.

(** Whether a value of shape [v] broadcasts into a target of shape [t]:
    aligned from the last axis, each axis of the value has length 1 or the
    target's length, and axes the value has in excess have length 1. *)
Fixpoint broadcast_rev (v t : list Z) : bool :=
  match v, t with
  | [], _ => true
  | a :: v', [] => (a =? 1)%Z && broadcast_rev v' []
  | a :: v', b :: t' => ((a =? 1) || (a =? b))%Z && broadcast_rev v' t'
  end.

Definition broadcastable (v t : list Z) : bool := broadcast_rev (rev v) (rev t).

End np.

(** [[f(x) for x in l]] where [f] may raise. *)
Fixpoint map_result {A B : Type} (f : A → result B) (l : list A) : result (list B) :=
  match l with
  | [] => Ok []
  | a :: l' =>
      match f a with
      | Raise e => Raise e
      | Ok b =>
          match map_result f l' with
          | Raise e => Raise e
          | Ok bs => Ok (b :: bs)
          end
      end
  end.

(** How many values [range(i, stop, step)] yields for a positive [step]: one
    for each multiple of [step] that fits below [stop]. *)
Definition remaining (stop step i : Z) : nat :=
  Z.to_nat (Z.max 0 ((stop - i + step - 1) / step)).

(** * preprocessor.py *)

Module preprocessor.

(** The three axes and the signal magnitude, after the columns were renamed
    and [df['smv']] was added. *)
Record signals : Type :=
  { acc_x : list float; acc_y : list float; acc_z : list float; smv : list float }.

(** Lines 29-37: the columns kept as x, y and z. *)
Definition accel_cols (df : DataFrame) : list string :=
  List.filter (λ col, Py.contains (Py.lower col) "acc") (map fst (columns df)).

Definition keep_columns (df : DataFrame) : result (list (string * column)) :=
  if (length (accel_cols df) <? 3)%nat
  then pd.set_columns (take 3 (columns df)) ["acc_x"; "acc_y"; "acc_z"]
  else pd.set_columns (pd.select (columns df) (accel_cols df)) ["acc_x"; "acc_y"; "acc_z"].

(** Line 40: [np.sqrt(x**2 + y**2 + z**2)] per sample. *)
Definition magnitude (x y z : float) : float :=
  PrimFloat.sqrt
    (PrimFloat.add (PrimFloat.add (F64.square x) (F64.square y)) (F64.square z)).

Definition add_smv (cols : list (string * column)) : result signals :=
  match pd.getitem cols "acc_x" with
  | Raise e => Raise e
  | Ok cx =>
  match pd.values cx with
  | Raise e => Raise e
  | Ok x =>
  match pd.getitem cols "acc_y" with
  | Raise e => Raise e
  | Ok cy =>
  match pd.values cy with
  | Raise e => Raise e
  | Ok y =>
  match pd.getitem cols "acc_z" with
  | Raise e => Raise e
  | Ok cz =>
  match pd.values cz with
  | Raise e => Raise e
  | Ok z =>
      Ok {| acc_x := x; acc_y := y; acc_z := z;
            smv := zip_with (λ a bc, magnitude a bc.1 bc.2) x (zip y z) |}
  end end end end end end.

(** [df[lo:hi]]: the same rows of every column. *)
Definition rows (s : signals) (lo hi : Z) : signals :=
  {| acc_x := Py.slice (acc_x s) lo hi; acc_y := Py.slice (acc_y s) lo hi;
     acc_z := Py.slice (acc_z s) lo hi; smv := Py.slice (smv s) lo hi |}.

(** Lines 48-57: the [features] dict of one window, in insertion order. *)
Definition features (window : signals) : list (string * float) :=
  [ ("x_mean", F64.mean (acc_x window));
    ("y_mean", F64.mean (acc_y window));
    ("z_mean", F64.mean (acc_z window));
    ("smv_mean", F64.mean (smv window));
    ("x_std", F64.std (acc_x window));
    ("y_std", F64.std (acc_y window));
    ("z_std", F64.std (acc_z window));
    ("smv_std", F64.std (smv window)) ].

(** Line 58: [list(features.values())]. *)
Definition feature_vector (window : signals) : list float := map snd (features window).

(** [process_accelerometer_data(file_path, window_size, step)]; the result is
    the list of the rows of the returned array ([np.array([])] when there
    is no window). *)
Definition process_accelerometer_data
    (fs : node) (file_path : path) (window_size step : Z) : py (list (list float)) :=
  if negb (os.exists_ fs file_path) then
    _ ← print ("File not found: " +:+ path_str file_path);
    mret []
  else
    df ← lift (pd.read_csv fs file_path);
    cols ← lift (keep_columns df);
    s ← lift (add_smv cols);
    starts ← lift (Py.range 0 (Z.of_nat (nrows df) - window_size) step);
    mret (map (λ i, feature_vector (rows s i (i + window_size))) starts).

Definition image_suffixes : list string := [".png"; ".jpg"; ".jpeg"].

(** Lines 78-82: the directory whose frames are listed. *)
Definition visible (names : list string) : list string :=
  List.filter (λ item, negb (Py.startswith item ".")) names.

Definition final_dir (fs : node) (dir_path : path) (dir_contents : list string) : path :=
  match dir_contents with
  | [item] => if os.isdir fs (join dir_path [item]) then join dir_path [item] else dir_path
  | _ => dir_path
  end.

(** Line 85: the sorted paths of the files with an image suffix. *)
Definition frame_files_in (dir_path : path) (names : list string) : list path :=
  Py.sorted path_str
    (map (λ f, join dir_path [f])
         (List.filter (λ f, Py.endswith_any f image_suffixes) names)).

(** Lines 99-103: load, resize and normalise one frame. *)
Definition load (fs : node) (target_size : Z * Z) (file_path : path) : result cv2.frame :=
  cv2.resize (cv2.imread fs file_path) target_size.

(** Lines 97-104: the body of the loop over the selected files. *)
Definition load_frame (fs : node) (target_size : Z * Z)
    (file_path : path) (frames : list cv2.frame) : py (list cv2.frame) :=
  frame ← lift (load fs target_size file_path);
  mret (frames ++ [frame]).

(** [process_image_sequence(dir_path, num_frames, target_size)]. *)
Definition process_image_sequence
    (fs : node) (dir_path : path) (num_frames : Z) (target_size : Z * Z)
  : py (list cv2.frame) :=
  if negb (os.isdir fs dir_path) then
    _ ← print ("Directory not found: " +:+ path_str dir_path);
    mret []
  else
    names ← lift (os.listdir fs dir_path);
    let dir_path := final_dir fs dir_path (visible names) in
    names ← lift (os.listdir fs dir_path);
    let frame_files := frame_files_in dir_path names in
    if (length frame_files =? 0)%nat then
      _ ← print ("ERROR: Still no image files found in the final path: "
                 +:+ path_str dir_path);
      mret []
    else
      let total_frames := Z.of_nat (length frame_files) in
      indices ← lift (np.linspace_int (total_frames - 1) num_frames);
      selected_files ← lift (map_result (Py.getitem frame_files) indices);
      for_each selected_files (load_frame fs target_size) [].

End preprocessor.

(** * NumPy's global random generator *)

Module random.

(** The generator's state: the stream of raw draws still to come. *)
Record RandomState : Type := { draws : nat → nat; position : nat }.

(** [random_interval(max)]: a draw in [0, max]. *)
Definition random_interval (rs : RandomState) (max : nat) : nat * RandomState :=
  (draws rs (position rs) mod S max,
   {| draws := draws rs; position := S (position rs) |}).

(** [x[i], x[j] = x[j], x[i]]. *)
Definition swap {A : Type} (x : list A) (i j : nat) : list A :=
  match x !! i, x !! j with
  | Some a, Some b => <[j := a]> (<[i := b]> x)
  | _, _ => x
  end.

(** The loop of [np.random.shuffle]: [for i in reversed(range(1, n))], each
    position is exchanged with a drawn one at or below it. *)
Fixpoint shuffle_from {A : Type} (i : nat) (x : list A) (rs : RandomState)
  : list A * RandomState :=
  match i with
  | O => (x, rs)
  | S i' =>
      let '(j, rs') := random_interval rs i in
      shuffle_from i' (swap x i j) rs'
  end.

Definition shuffle {A : Type} (x : list A) (rs : RandomState) : list A * RandomState :=
  shuffle_from (length x - 1) x rs.

End random.

(** * dataloader.py *)

Module dataloader.

(** The attributes [__init__] sets; [indexes] is the only one written later. *)
Record FallDetectionDataGenerator : Type :=
  { data_dir : path;
    event_folders : list string;
    labels : gmap string Z;
    batch_size : Z;
    image_dim : Z * Z;
    n_channels : Z;
    n_frames : Z;
    accel_window_size : Z;
    accel_step : Z;
    shuffle : bool;
    indexes : list nat }.

Definition set_indexes (self : FallDetectionDataGenerator) (ix : list nat)
  : FallDetectionDataGenerator :=
  {| data_dir := data_dir self; event_folders := event_folders self;
     labels := labels self; batch_size := batch_size self;
     image_dim := image_dim self; n_channels := n_channels self;
     n_frames := n_frames self; accel_window_size := accel_window_size self;
     accel_step := accel_step self; shuffle := shuffle self; indexes := ix |}.

(** [on_epoch_end]: shuffles [self.indexes] in place when [self.shuffle]. *)
Definition on_epoch_end (self : FallDetectionDataGenerator) (rs : random.RandomState)
  : FallDetectionDataGenerator * random.RandomState :=
  if shuffle self then
    let '(ix, rs') := random.shuffle (indexes self) rs in
    (set_indexes self ix, rs')
  else (self, rs).

(** [__init__]: [np.arange(len(event_folders))], then [on_epoch_end()]. *)
Definition init (data_dir : path) (event_folders : list string) (labels : gmap string Z)
    (batch_size : Z) (image_dim : Z * Z) (n_channels n_frames : Z)
    (accel_window_size accel_step : Z) (shuffle : bool) (rs : random.RandomState)
  : FallDetectionDataGenerator * random.RandomState :=
  on_epoch_end
    {| data_dir := data_dir; event_folders := event_folders; labels := labels;
       batch_size := batch_size; image_dim := image_dim; n_channels := n_channels;
       n_frames := n_frames; accel_window_size := accel_window_size;
       accel_step := accel_step; shuffle := shuffle;
       indexes := seq 0 (length event_folders) |}
    rs.

(** [__len__]: [int(np.floor(len(self.event_folders) / self.batch_size))].
    The quotient is taken exactly (the binary64 quotient of two integers
    below 2^53 has the same floor). *)
Definition len (self : FallDetectionDataGenerator) : result Z :=
  if (batch_size self =? 0)%Z then Raise ZeroDivisionError
  else Ok (Z.of_nat (length (event_folders self)) / batch_size self)%Z.

(** The same value with the quotient formed in binary64, as Python's
    division of two machine-size integers does. *)
Definition len_f64 (self : FallDetectionDataGenerator) : result Z :=
  if (batch_size self =? 0)%Z then Raise ZeroDivisionError
  else Ok (F64.floor_Z (PrimFloat.div (F64.of_Z (Z.of_nat (length (event_folders self))))
                                      (F64.of_Z (batch_size self)))).

(** Line 35: the indexes of batch [index]. *)
Definition batch_indexes (self : FallDetectionDataGenerator) (index : Z) : list nat :=
  Py.slice (indexes self) (index * batch_size self) ((index + 1) * batch_size self).

(** Line 38: the folder names of a batch. *)
Definition batch_event_folders (self : FallDetectionDataGenerator) (index : Z)
  : result (list string) :=
  map_result (λ k : nat, Py.getitem (event_folders self) (Z.of_nat k))
             (batch_indexes self index).

(** The three arrays a batch is made of: the rows of [X_images] and [y] are
    unset ([None]) until assigned, [X_accel] grows by appending. *)
Record arrays : Type :=
  { X_images : list (option (list cv2.frame));
    X_accel : list (list float);
    y : list (option Z) }.

(** [a[i] = v] on a preallocated array. *)
Definition setitem {A : Type} (a : list (option A)) (i : nat) (v : A)
  : result (list (option A)) :=
  if (i <? length a)%nat then Ok (<[i := Some v]> a) else Raise IndexError.

(** Lines 73-77: the summary of one event's windows. *)
Definition accel_summary (accel_features : list (list float)) : list float :=
  if (0 <? length accel_features)%nat then F64.mean_axis0 accel_features
  else F64.zeros 8.

(** Lines 60-80: the body of the loop over the events of a batch. *)
Definition generate_event (fs : node) (self : FallDetectionDataGenerator)
    (event : nat * string) (a : arrays) : py arrays :=
  let '(i, folder_name) := event in
  label ← lift (match labels self !! folder_name with
                | Some l => Ok l
                | None => Raise KeyError
                end);
  let event_type := if (label =? 1)%Z then "falls" else "adls" in
  let event_path := join (data_dir self) [event_type; folder_name] in
  let image_path := join event_path ["cam0"; "rgb"] in
  frames ← preprocessor.process_image_sequence fs image_path (n_frames self) (image_dim self);
  images ← lift (
    if np.broadcastable (np.array_shape cv2.frame_shape frames)
         [n_frames self; (image_dim self).1; (image_dim self).2; n_channels self]
    then setitem (X_images a) i frames
    else if (i <? length (X_images a))%nat then Raise ValueError else Raise IndexError);
  let accel_path := join event_path ["acc"; folder_name +:+ "-acc.csv"] in
  accel_features ← preprocessor.process_accelerometer_data
                      fs accel_path (accel_window_size self) (accel_step self);
  labels' ← lift (setitem (y a) i label);
  mret {| X_images := images;
          X_accel := X_accel a ++ [accel_summary accel_features];
          y := labels' |}.

(** [__data_generation(batch_event_folders)]. [np.empty] refuses a negative
    dimension. *)
Definition data_generation (fs : node) (self : FallDetectionDataGenerator)
    (batch : list string) : py arrays :=
  if ((batch_size self <? 0) || (n_frames self <? 0) || ((image_dim self).1 <? 0)
      || ((image_dim self).2 <? 0) || (n_channels self <? 0))%Z
  then raise ValueError
  else
    for_each (zip (seq 0 (length batch)) batch) (generate_event fs self)
      {| X_images := replicate (Z.to_nat (batch_size self)) None;
         X_accel := [];
         y := replicate (Z.to_nat (batch_size self)) None |}.

(** [__getitem__(index)]. *)
Definition getitem (fs : node) (self : FallDetectionDataGenerator) (index : Z)
  : py arrays :=
  batch ← lift (batch_event_folders self index);
  data_generation fs self batch.

(** The generators a program can hold: a freshly constructed one, or one
    on which [on_epoch_end] was called once more. *)
Inductive reachable : FallDetectionDataGenerator → Prop :=
| reachable_init data_dir event_folders labels batch_size image_dim n_channels
    n_frames accel_window_size accel_step shuffle rs :
    reachable (init data_dir event_folders labels batch_size image_dim n_channels
                    n_frames accel_window_size accel_step shuffle rs).1
| reachable_epoch self rs :
    reachable self → reachable (on_epoch_end self rs).1.

(** The index batches of one epoch: [__getitem__] for 0 .. [__len__()] - 1. *)
Definition epoch_batches (self : FallDetectionDataGenerator) : list (list nat) :=
  map (λ index : nat, batch_indexes self (Z.of_nat index))
      (seq 0 (Z.to_nat (Z.of_nat (length (event_folders self)) / batch_size self))).

(** The path of an event's accelerometer file (lines 61-62 and 70). *)
Definition accel_path (self : FallDetectionDataGenerator) (label : Z) (folder_name : string)
  : path :=
  join (join (data_dir self) [if (label =? 1)%Z then "falls" else "adls"; folder_name])
       ["acc"; folder_name +:+ "-acc.csv"].

(** The path of an event's frame directory (lines 61-62 and 66). *)
Definition image_path (self : FallDetectionDataGenerator) (label : Z) (folder_name : string)
  : path :=
  join (join (data_dir self) [if (label =? 1)%Z then "falls" else "adls"; folder_name])
       ["cam0"; "rgb"].

End dataloader.

(** The elementwise mean of a sequence of vectors, in the specification's
    words: component [j] is the mean of the vectors' [j]-th components. *)
Definition elementwise_mean (vectors : list (list float)) (j : nat) : float :=
  PrimFloat.div (F64.reduce_add (map (λ v, nth j v PrimFloat.nan) vectors))
                (F64.of_nat (length vectors)).


(** * Sample inputs *)

Module samples.

Definition tenth : float := 0x1.999999999999ap-4.
Definition half : float := 0x1p-1.

(** A table of [n] identical rows under the usual three headers. *)
Definition constant_table (n : nat) (v : float) : DataFrame :=
  {| nrows := n;
     columns := [ ("acc_x", NumCol (replicate n v));
                  ("acc_y", NumCol (replicate n v));
                  ("acc_z", NumCol (replicate n v)) ] |}.

(** One window of three identical samples. *)
Definition constant_window (v : float) : preprocessor.signals :=
  {| preprocessor.acc_x := [v; v; v]; preprocessor.acc_y := [v; v; v];
     preprocessor.acc_z := [v; v; v];
     preprocessor.smv := replicate 3 (preprocessor.magnitude v v v) |}.

(** Small images, told apart by their pixels. *)
Definition picture (k : Z) : image :=
  {| im_height := 2; im_width := 2; im_pixels := replicate 12 k |}.

(** A frame directory with five images. *)
Definition five_frames : node :=
  Dir [ ("rgb",
         Dir [ ("f3.png", File (ImageData (picture 3)));
               ("f1.png", File (ImageData (picture 1)));
               ("f5.png", File (ImageData (picture 5)));
               ("f2.png", File (ImageData (picture 2)));
               ("f4.png", File (ImageData (picture 4))) ]) ].

(** A frame directory where a dot-prefixed file has an image suffix. *)
Definition hidden_frame : node :=
  Dir [ ("rgb",
         Dir [ ("0002.png", File (ImageData (picture 2)));
               ("._0001.png", File (ImageData (picture 0)));
               ("0001.png", File (ImageData (picture 1)));
               (".DS_Store", File Garbage) ]) ].

(** A table with a time stamp and three axes under mixed-case headers. *)
Definition mixed_case_table : DataFrame :=
  {| nrows := 2;
     columns := [ ("time", NumCol [0x1p+0; 0x1p+1]%float);
                  ("Acc_X", NumCol [half; half]);
                  ("ACC_Y", NumCol [tenth; tenth]);
                  ("acc_z", NumCol [half; tenth]) ] |}.

(** A table with four headers that contain "acc". *)
Definition four_acc_table : DataFrame :=
  {| nrows := 1;
     columns := [ ("acc_x", NumCol [half]); ("acc_y", NumCol [half]);
                  ("acc_z", NumCol [half]); ("acc_mag", NumCol [half]) ] |}.

(** A table with a header row and no data row. *)
Definition header_only_table : DataFrame :=
  {| nrows := 0;
     columns := [ ("acc_x", ObjCol []); ("acc_y", ObjCol []); ("acc_z", ObjCol []) ] |}.

(** A directory holding one file, [acc.csv]. *)
Definition one_file (b : blob) : node := Dir [("acc.csv", File b)].

(** A frame directory whose only image file cannot be decoded. *)
Definition corrupt_frame : node :=
  Dir [ ("rgb", Dir [ ("f1.png", File Garbage) ]) ].

(** The names listed in [hidden_frame]'s directory. *)
Definition hidden_names : list string :=
  ["0002.png"; "._0001.png"; "0001.png"; ".DS_Store"].

Definition resized (k : Z) : cv2.frame :=
  {| cv2.fr_source := picture k; cv2.fr_width := 128; cv2.fr_height := 128 |}.

(** A dataset of three events: [fall-01] is complete, [adl-01] has no
    [cam0/rgb] directory, [adl-02] has no accelerometer file. *)
Definition two_pictures : node :=
  Dir [ ("a.png", File (ImageData (picture 1)));
        ("b.png", File (ImageData (picture 2))) ].

Definition dataset : node :=
  Dir [ ("data",
         Dir [ ("falls",
                Dir [ ("fall-01",
                       Dir [ ("acc", Dir [ ("fall-01-acc.csv",
                                            File (CsvText (constant_table 200 half))) ]);
                             ("cam0", Dir [ ("rgb", two_pictures) ]) ]) ]);
               ("adls",
                Dir [ ("adl-01",
                       Dir [ ("acc", Dir [ ("adl-01-acc.csv",
                                            File (CsvText (constant_table 200 half))) ]);
                             ("cam0", Dir []) ]);
                      ("adl-02",
                       Dir [ ("acc", Dir []);
                             ("cam0", Dir [ ("rgb", two_pictures) ]) ]) ]) ]) ].

Definition generator (folders : list string) (batch_size : Z) (shuffle : bool)
  : dataloader.FallDetectionDataGenerator :=
  {| dataloader.data_dir := ["data"];
     dataloader.event_folders := folders;
     dataloader.labels :=
       <["fall-01" := 1%Z]> (<["adl-01" := 0%Z]> (<["adl-02" := 0%Z]> ∅));
     dataloader.batch_size := batch_size;
     dataloader.image_dim := (128, 128)%Z;
     dataloader.n_channels := 3;
     dataloader.n_frames := 2;
     dataloader.accel_window_size := 128;
     dataloader.accel_step := 64;
     dataloader.shuffle := shuffle;
     dataloader.indexes := seq 0 (length folders) |}.

(** Event names [event-00], [event-01], ... *)
Definition event_name (i : nat) : string :=
  "event-" +:+ String (ascii_of_nat (48 + i / 10))
                      (String (ascii_of_nat (48 + i mod 10)) EmptyString).

Definition event_names (n : nat) : list string := map event_name (seq 0 n).

(** A generator state with an arbitrary stream of draws. *)
Definition draws : random.RandomState :=
  {| random.draws := λ k, 3 * k + 2; random.position := 0 |}.

(** A generator over 95 events in batches of 16 that does not shuffle. *)
Definition ordered_generator : dataloader.FallDetectionDataGenerator :=
  (dataloader.init ["data"] (event_names 95) ∅ 16 (128, 128)%Z 3 32 128 64 false draws).1.

(** A shuffling generator over 10 events in batches of 3, after a second
    call of [on_epoch_end]. *)
Definition shuffled_generator : dataloader.FallDetectionDataGenerator :=
  (dataloader.on_epoch_end
     (dataloader.init ["data"] (event_names 10) ∅ 3 (128, 128)%Z 3 32 128 64 true draws).1
     (dataloader.init ["data"] (event_names 10) ∅ 3 (128, 128)%Z 3 32 128 64 true draws).2).1.

Definition empty_arrays (batch_size : nat) : dataloader.arrays :=
  {| dataloader.X_images := replicate batch_size None;
     dataloader.X_accel := [];
     dataloader.y := replicate batch_size None |}.

(** The arrays after the first event of the batch [fall-01], [adl-02]. *)
Definition first_event_arrays : dataloader.arrays :=
  match outcome (dataloader.generate_event dataset
                   (generator ["fall-01"; "adl-02"] 2 false)
                   (0, "fall-01") (empty_arrays 2)) with
  | Ok a => a
  | Raise _ => empty_arrays 2
  end.

End samples.

(** * Orders used to state how listings are sorted *)

From Stdlib Require Import Sorted DecimalString.

(** A path does not sort after another one when [sorted] compares their
    strings. *)
Definition path_le (p q : path) : Prop :=
  String.leb (path_str p) (path_str q) = true.
(** * Properties of the Python primitives *)

Section RangeFacts.

Variables (stop step : Z).
Hypothesis step_pos : (0 < step)%Z.

Lemma remaining_done (i : Z) : (stop ≤ i)%Z → remaining stop step i = 0.
Proof.
  intros Hi. unfold remaining.
  assert ((stop - i + step - 1) / step < 1)%Z; [|lia].
  apply Z.div_lt_upper_bound; lia.
Qed.

Lemma remaining_more (i : Z) :
  (i < stop)%Z → remaining stop step i = S (remaining stop step (i + step)).
Proof.
  intros Hi. unfold remaining.
  replace (stop - i + step - 1)%Z with ((stop - (i + step) + step - 1) + 1 * step)%Z by lia.
  rewrite Z.div_add by lia.
  assert (0 ≤ (stop - (i + step) + step - 1) / step)%Z.
  { apply Z.div_pos; lia. }
  lia.
Qed.

Lemma range_from_unfold (fuel : nat) (i : Z) :
  Z.to_nat (stop - i) ≤ fuel →
  Py.range_from fuel i stop step
  = map (λ k : nat, (i + Z.of_nat k * step)%Z) (seq 0 (remaining stop step i)).
Proof.
  revert i. induction fuel as [|fuel IH]; intros i Hfuel; simpl.
  - rewrite remaining_done by lia. reflexivity.
  - destruct (Z.ltb_spec 0 step) as [_|]; [|lia].
    destruct (Z.ltb_spec i stop) as [Hlt|Hge].
    + rewrite remaining_more by done. simpl.
      f_equal; [lia|].
      rewrite IH by lia. rewrite <- seq_shift, map_map.
      apply map_ext. intros k. lia.
    + rewrite remaining_done by lia. reflexivity.
Qed.

(** [range(0, stop, step)] for a positive step is [0, step, 2*step, ...],
    one value for each multiple of [step] below [stop]. *)
Lemma range_positive_step :
  Py.range 0 stop step
  = Ok (map (λ k : nat, (Z.of_nat k * step)%Z) (seq 0 (remaining stop step 0))).
Proof.
  unfold Py.range.
  destruct (Z.eqb_spec step 0) as [|_]; [lia|].
  rewrite range_from_unfold by lia. reflexivity.
Qed.

Lemma remaining_below (k : nat) :
  k < remaining stop step 0 → (Z.of_nat k * step < stop)%Z.
Proof.
  unfold remaining. intros Hk.
  pose proof (Z.mul_div_le (stop - 0 + step - 1) step step_pos). nia.
Qed.

Lemma remaining_reaches : (stop ≤ Z.of_nat (remaining stop step 0) * step)%Z.
Proof.
  unfold remaining.
  pose proof (Z.mul_succ_div_gt (stop - 0 + step - 1) step step_pos). nia.
Qed.

End RangeFacts.

(** * The output-and-exception monad *)

Lemma bind_ok {A B : Type} (a : A) (f : A → py B) : lift (Ok a) ≫= f = f a.
Proof. unfold mbind, py_bind. simpl. by destruct (f a). Qed.

Lemma bind_raise {A B : Type} (e : exn) (f : A → py B) : lift (Raise e) ≫= f = raise e.
Proof. reflexivity. Qed.

Lemma bind_ret {A B : Type} (a : A) (f : A → py B) : mret a ≫= f = f a.
Proof. unfold mbind, py_bind, mret, py_ret. simpl. by destruct (f a). Qed.

Lemma bind_outcome_ok {A B : Type} (m : py A) (f : A → py B) (b : B) :
  outcome (m ≫= f) = Ok b → ∃ a, outcome m = Ok a ∧ outcome (f a) = Ok b.
Proof.
  unfold mbind, py_bind. destruct (outcome m) as [a|e]; simpl; [eauto | discriminate].
Qed.

Lemma bind_outcome {A B : Type} (m : py A) (f : A → py B) (a : A) :
  outcome m = Ok a → outcome (m ≫= f) = outcome (f a).
Proof. unfold mbind, py_bind. by intros ->. Qed.

Lemma bind_outcome_raise {A B : Type} (m : py A) (f : A → py B) (e : exn) :
  outcome m = Raise e → outcome (m ≫= f) = Raise e.
Proof. unfold mbind, py_bind. by intros ->. Qed.

(** * preprocessor.py: the sliding windows *)

Section Windows.

Import preprocessor.

Lemma read_csv_exists (fs : node) (p : path) (df : DataFrame) :
  pd.read_csv fs p = Ok df → os.exists_ fs p = true.
Proof.
  unfold pd.read_csv, os.exists_. by destruct (resolve fs p).
Qed.

(** With a readable table and a positive step the function prints nothing
    and returns one feature vector per start index [0, step, 2*step, ...]
    below [len(df) - window_size]. *)
Lemma process_accelerometer_data_unfold
    (fs : node) (file_path : path) (df : DataFrame)
    (cols : list (string * column)) (s : signals) (window_size step : Z) :
  pd.read_csv fs file_path = Ok df →
  keep_columns df = Ok cols →
  add_smv cols = Ok s →
  (0 < step)%Z →
  process_accelerometer_data fs file_path window_size step
  = Py [] (Ok (map (λ i, feature_vector (rows s i (i + window_size)))
                   (map (λ k : nat, (Z.of_nat k * step)%Z)
                        (seq 0 (remaining (Z.of_nat (nrows df) - window_size) step 0))))).
Proof.
  intros Hread Hcols Hsmv Hstep. unfold process_accelerometer_data.
  rewrite (read_csv_exists _ _ _ Hread). cbn [negb].
  rewrite Hread, bind_ok, Hcols, bind_ok, Hsmv, bind_ok.
  rewrite range_positive_step by done. by rewrite bind_ok.
Qed.

(** C1 (amended): for a readable table of L rows, a positive window size W
    and a positive step S, the function emits max(0, ceil((L - W) / S))
    feature vectors, one for each start index 0, S, 2S, ... strictly below
    L - W; the next multiple of S is not below L - W. With W = 128 and
    S = 64 that is no window for L = 128 and two windows for L = 256. *)
Theorem window_count_is_ceiling
    (fs : node) (file_path : path) (df : DataFrame)
    (cols : list (string * column)) (s : signals) (W S : Z) :
  pd.read_csv fs file_path = Ok df →
  keep_columns df = Ok cols →
  add_smv cols = Ok s →
  (0 < W)%Z → (0 < S)%Z →
  let L := Z.of_nat (nrows df) in
  ∃ (starts : list Z) (windows : list (list float)),
    process_accelerometer_data fs file_path W S = Py [] (Ok windows)
    ∧ windows = map (λ i, feature_vector (rows s i (i + W))) starts
    ∧ starts = map (λ k : nat, (Z.of_nat k * S)%Z) (seq 0 (length windows))
    ∧ Forall (λ i, (0 ≤ i < L - W)%Z) starts
    ∧ (L - W ≤ Z.of_nat (length windows) * S)%Z
    ∧ Z.of_nat (length windows) = Z.max 0 ((L - W + S - 1) / S)
    ∧ (W = 128%Z → S = 64%Z → L = 128%Z → windows = [])
    ∧ (W = 128%Z → S = 64%Z → L = 256%Z → length windows = 2).
Proof.
  intros Hread Hcols Hsmv HW HS L.
  set (n := remaining (L - W) S 0).
  exists (map (λ k : nat, (Z.of_nat k * S)%Z) (seq 0 n)).
  eexists. split; [by apply (process_accelerometer_data_unfold _ _ df cols)|].
  assert (Z.of_nat n = Z.max 0 ((L - W + S - 1) / S)) as Hn.
  { unfold n, remaining. rewrite Z.sub_0_r. lia. }
  rewrite !length_map, length_seq.
  repeat split; try done.
  - apply Forall_forall. intros i Hi%list_elem_of_In.
    apply in_map_iff in Hi as [k [<- Hk%in_seq]].
    split; [lia|]. apply remaining_below; [done|]. unfold n in Hk. lia.
  - by apply remaining_reaches.
  - intros -> -> HL. rewrite HL in Hn. change (Z.of_nat n = 0%Z) in Hn.
    assert (n = 0) as Hn0 by lia. unfold n, L in Hn0. by rewrite Hn0.
  - intros -> -> HL. rewrite HL in Hn. change (Z.of_nat n = 2%Z) in Hn.
    assert (n = 2) as Hn2 by lia. unfold n, L in Hn2. by rewrite Hn2.
Qed.

(** The claimed count, max(0, floor((L - W) / S)), is one short whenever
    L - W is positive and no multiple of S: 200 rows give two windows
    (starting at 0 and 64), not one. *)
Lemma floor_formula_undercounts :
  ∃ windows : list (list float),
    outcome (process_accelerometer_data
               (samples.one_file (CsvText (samples.constant_table 200 samples.half)))
               ["acc.csv"] 128 64) = Ok windows
    ∧ length windows = 2
    ∧ Z.to_nat (Z.max 0 ((200 - 128) / 64)) = 1.
Proof.
  eexists. split; [vm_compute; reflexivity|]. split; reflexivity.
Qed.

Lemma window_count_is_ceiling_witness :
  ∃ (starts : list Z) (windows : list (list float)),
    process_accelerometer_data
      (samples.one_file (CsvText (samples.constant_table 200 samples.half)))
      ["acc.csv"] 128 64 = Py [] (Ok windows)
    ∧ starts = [0%Z; 64%Z]
    ∧ length windows = 2.
Proof.
  destruct (window_count_is_ceiling
              (samples.one_file (CsvText (samples.constant_table 200 samples.half)))
              ["acc.csv"] (samples.constant_table 200 samples.half)
              [ ("acc_x", NumCol (replicate 200 samples.half));
                ("acc_y", NumCol (replicate 200 samples.half));
                ("acc_z", NumCol (replicate 200 samples.half)) ]
              {| acc_x := replicate 200 samples.half;
                 acc_y := replicate 200 samples.half;
                 acc_z := replicate 200 samples.half;
                 smv := replicate 200 (magnitude samples.half samples.half samples.half) |}
              128%Z 64%Z)
    as (starts & windows & Hrun & _ & Hstarts & _ & _ & Hlen & _);
    [reflexivity | reflexivity | reflexivity | lia | lia |].
  assert (length windows = 2) as Hl.
  { apply Nat2Z.inj. rewrite Hlen. reflexivity. }
  exists starts, windows. rewrite Hl in Hstarts. by rewrite Hstarts.
Defined.

(** ** Column resolution *)

Lemma set_columns_ok (cols : list (string * column)) (names : list string) :
  length cols = length names →
  pd.set_columns cols names = Ok (zip names (map snd cols)).
Proof. unfold pd.set_columns. intros ->. by rewrite Nat.eqb_refl. Qed.

Lemma set_columns_raise (cols : list (string * column)) (names : list string) :
  length cols ≠ length names → pd.set_columns cols names = Raise ValueError.
Proof.
  unfold pd.set_columns. intros H. by destruct (Nat.eqb_spec (length cols) (length names)).
Qed.

Lemma filter_label_nil (cols : list (string * column)) (n : string) :
  n ∉ map fst cols → List.filter (λ c : string * column, String.eqb c.1 n) cols = [].
Proof.
  induction cols as [|c cols IH]; [done|]. simpl. intros Hn.
  apply not_elem_of_cons in Hn as [Hc Hn].
  destruct (String.eqb_spec c.1 n) as [Heq|_]; [by symmetry in Heq | by apply IH].
Qed.

(** With distinct labels, selecting the labels that satisfy a test keeps
    exactly the columns whose label satisfies it, in file order. *)
Lemma select_filter (test : string → bool) (pre cols : list (string * column)) :
  NoDup (map fst (pre ++ cols)) →
  pd.select (pre ++ cols) (List.filter test (map fst cols))
  = List.filter (λ c : string * column, test c.1) cols.
Proof.
  revert pre. induction cols as [|c cols IH]; intros pre Hnodup; [done|].
  assert (pd.select (pre ++ c :: cols) (List.filter test (map fst cols))
          = List.filter (λ c : string * column, test c.1) cols) as Hrest.
  { replace (pre ++ c :: cols) with ((pre ++ [c]) ++ cols) in * by by rewrite <- app_assoc.
    by apply IH. }
  simpl. destruct (test c.1); [|done].
  unfold pd.select in *. simpl. rewrite Hrest. f_equal.
  rewrite map_app in Hnodup. simpl in Hnodup.
  apply NoDup_app in Hnodup as (_ & Hpre & [Hcols _]%NoDup_cons).
  rewrite List.filter_app. simpl. rewrite String.eqb_refl.
  rewrite !filter_label_nil; [done | done |].
  intros Hin. by apply (Hpre _ Hin), list_elem_of_here.
Qed.

Lemma accel_cols_filter (df : DataFrame) :
  accel_cols df
  = map fst (List.filter (λ c : string * column, Py.contains (Py.lower c.1) "acc")
                         (columns df)).
Proof.
  unfold accel_cols. induction (columns df) as [|c cols IH]; [done|].
  simpl. destruct (Py.contains (Py.lower c.1) "acc"); simpl; by rewrite IH.
Qed.

Lemma add_smv_axes (c1 c2 c3 : column) (s : signals) :
  add_smv [("acc_x", c1); ("acc_y", c2); ("acc_z", c3)] = Ok s →
  pd.values c1 = Ok (acc_x s) ∧ pd.values c2 = Ok (acc_y s) ∧ pd.values c3 = Ok (acc_z s).
Proof.
  unfold add_smv. simpl.
  destruct (pd.values c1) as [x|]; [|discriminate].
  destruct (pd.values c2) as [y|]; [|discriminate].
  destruct (pd.values c3) as [z|]; [|discriminate].
  by intros [= <-].
Qed.




(** ** Missing, unreadable and empty sources *)

Lemma set_columns_three (l : list (string * column)) (cols : list (string * column)) :
  pd.set_columns l ["acc_x"; "acc_y"; "acc_z"] = Ok cols →
  ∃ a b c, l = [a; b; c] ∧ cols = [("acc_x", a.2); ("acc_y", b.2); ("acc_z", c.2)].
Proof.
  unfold pd.set_columns.
  destruct l as [|a [|b [|c [|]]]]; simpl; try discriminate.
  intros [= <-]. by exists a, b, c.
Qed.

Lemma select_subset (cols : list (string * column)) (names : list string) :
  pd.select cols names ⊆ cols.
Proof.
  unfold pd.select. intros c Hc%list_elem_of_In.
  apply in_flat_map in Hc as (n & _ & Hc). apply filter_In in Hc as [Hc _].
  by apply list_elem_of_In.
Qed.

Lemma keep_columns_subset (df : DataFrame) (cols : list (string * column)) :
  keep_columns df = Ok cols →
  ∃ a b c, cols = [("acc_x", a.2); ("acc_y", b.2); ("acc_z", c.2)]
           ∧ a ∈ columns df ∧ b ∈ columns df ∧ c ∈ columns df.
Proof.
  unfold keep_columns. destruct (_ <? _).
  - intros (a & b & c & Hl & ->)%set_columns_three. exists a, b, c.
    assert ([a; b; c] ⊆ columns df) as Hsub.
    { rewrite <- Hl. apply subseteq_take. }
    split; [done|]. repeat split; apply Hsub; set_solver.
  - intros (a & b & c & Hl & ->)%set_columns_three. exists a, b, c.
    assert ([a; b; c] ⊆ columns df) as Hsub.
    { rewrite <- Hl. apply select_subset. }
    split; [done|]. repeat split; apply Hsub; set_solver.
Qed.

Lemma values_empty (c : column) : column_length c = 0 → pd.values c = Ok [].
Proof. by destruct c as [[|]|[|]]. Qed.

(** C8 (amended): the function does not raise when the path does not exist
    (it prints "File not found: <path>" and returns the empty sequence) nor
    when the file reads as a table without rows whose columns resolve
    (it returns the empty sequence and prints nothing); when the file
    exists and the reader raises, or the column renaming raises, that
    exception reaches the caller. *)
Theorem accelerometer_failure_modes
    (fs : node) (file_path : path) (window_size step : Z) :
  (os.exists_ fs file_path = false →
   process_accelerometer_data fs file_path window_size step
   = Py ["File not found: " +:+ path_str file_path] (Ok []))
  ∧ (∀ df cols,
       pd.read_csv fs file_path = Ok df → wf_frame df → nrows df = 0 →
       keep_columns df = Ok cols → (0 ≤ window_size)%Z → (0 < step)%Z →
       process_accelerometer_data fs file_path window_size step = Py [] (Ok []))
  ∧ (∀ e,
       os.exists_ fs file_path = true → pd.read_csv fs file_path = Raise e →
       process_accelerometer_data fs file_path window_size step = Py [] (Raise e))
  ∧ (∀ df e,
       pd.read_csv fs file_path = Ok df → keep_columns df = Raise e →
       process_accelerometer_data fs file_path window_size step = Py [] (Raise e)).
Proof.
  repeat split.
  - intros Hmissing. unfold process_accelerometer_data. by rewrite Hmissing.
  - intros df cols Hread Hwf Hrows Hcols HW HS.
    destruct (keep_columns_subset _ _ Hcols) as (a & b & c & -> & Ha & Hb & Hc).
    unfold wf_frame in Hwf. rewrite Forall_forall, Hrows in Hwf.
    erewrite process_accelerometer_data_unfold; [| done | done | | done].
    + rewrite Hrows, remaining_done by lia. reflexivity.
    + unfold add_smv. simpl.
      by rewrite !values_empty by by apply Hwf.
  - intros e Hexists Hread. unfold process_accelerometer_data.
    by rewrite Hexists, Hread.
  - intros df e Hread Hcols. unfold process_accelerometer_data.
    rewrite (read_csv_exists _ _ _ Hread). cbn [negb].
    by rewrite Hread, bind_ok, Hcols.
Qed.

(** A file that exists and cannot be parsed: the reader's exception
    propagates, nothing is printed and nothing is returned. *)
Lemma unparsable_file_raises :
  os.exists_ (samples.one_file Garbage) ["acc.csv"] = true
  ∧ process_accelerometer_data (samples.one_file Garbage) ["acc.csv"] 128 64
    = Py [] (Raise ParserError).
Proof. split; reflexivity. Qed.

Lemma accelerometer_failure_modes_witness :
  process_accelerometer_data (samples.one_file Garbage) ["missing.csv"] 128 64
  = Py ["File not found: missing.csv"] (Ok [])
  ∧ process_accelerometer_data
      (samples.one_file (CsvText samples.header_only_table)) ["acc.csv"] 128 64
    = Py [] (Ok [])
  ∧ process_accelerometer_data (samples.one_file Garbage) ["acc.csv"] 128 64
    = Py [] (Raise ParserError)
  ∧ process_accelerometer_data
      (samples.one_file (CsvText samples.four_acc_table)) ["acc.csv"] 128 64
    = Py [] (Raise ValueError).
Proof.
  split; [|split; [|split]].
  - apply (accelerometer_failure_modes (samples.one_file Garbage) ["missing.csv"]).
    reflexivity.
  - apply (accelerometer_failure_modes
             (samples.one_file (CsvText samples.header_only_table)) ["acc.csv"] 128 64)
      with (df := samples.header_only_table)
           (cols := [("acc_x", ObjCol []); ("acc_y", ObjCol []); ("acc_z", ObjCol [])]).
    + reflexivity.
    + repeat constructor.
    + reflexivity.
    + reflexivity.
    + lia.
    + lia.
  - apply (accelerometer_failure_modes (samples.one_file Garbage) ["acc.csv"]);
      reflexivity.
  - apply (accelerometer_failure_modes
             (samples.one_file (CsvText samples.four_acc_table)) ["acc.csv"] 128 64)
      with (df := samples.four_acc_table); reflexivity.
Defined.

End Windows.

(** * Binary64 facts behind the window statistics *)

Section Binary64.

Lemma div_nan_r (x : float) : PrimFloat.div x PrimFloat.nan = PrimFloat.nan.
Proof.
  rewrite <- (SF2Prim_Prim2SF (PrimFloat.div x PrimFloat.nan)), FloatAxioms.div_spec.
  change (Prim2SF PrimFloat.nan) with S754_nan.
  by destruct (Prim2SF x).
Qed.

Lemma is_finite_cases (x : float) :
  PrimFloat.is_finite x = true →
  (∃ s, Prim2SF x = S754_zero s) ∨ (∃ s m e, Prim2SF x = S754_finite s m e).
Proof.
  unfold PrimFloat.is_finite, PrimFloat.is_nan, PrimFloat.is_infinity.
  rewrite !FloatAxioms.eqb_spec, FloatAxioms.abs_spec.
  change (Prim2SF PrimFloat.infinity) with (S754_infinity false).
  destruct (Prim2SF x) as [s| s | | s m e]; simpl; intros H.
  - left. eauto.
  - by destruct s.
  - discriminate.
  - right. eauto.
Qed.

Lemma is_finite_not_nan (x : float) :
  PrimFloat.is_finite x = true → PrimFloat.is_nan x = false.
Proof.
  unfold PrimFloat.is_finite. by destruct (PrimFloat.is_nan x).
Qed.

(** A finite number minus itself is +0. *)
Lemma sub_diag (x : float) :
  PrimFloat.is_finite x = true → PrimFloat.sub x x = PrimFloat.zero.
Proof.
  intros H. rewrite <- (SF2Prim_Prim2SF (PrimFloat.sub x x)), FloatAxioms.sub_spec.
  destruct (is_finite_cases x H) as [[s ->]|(s & m & e & ->)].
  - by destruct s.
  - unfold SF64sub, SFsub. rewrite Z.sub_diag. reflexivity.
Qed.

(** +0 over a positive divisor is +0. *)
Lemma div_zero_pos (d : float) :
  PrimFloat.ltb PrimFloat.zero d = true →
  PrimFloat.div PrimFloat.zero d = PrimFloat.zero.
Proof.
  rewrite FloatAxioms.ltb_spec.
  rewrite <- (SF2Prim_Prim2SF (PrimFloat.div PrimFloat.zero d)), FloatAxioms.div_spec.
  change (Prim2SF PrimFloat.zero) with (S754_zero false).
  destruct (Prim2SF d) as [s| s | | s m e]; simpl; try discriminate;
    destruct s; try discriminate; auto.
Qed.

Lemma all_from_spec (fuel : nat) (z : Z) (p : Z → bool) :
  F64.all_from fuel z p = true →
  ∀ k : Z, (z ≤ k < z + Z.of_nat fuel)%Z → p k = true.
Proof.
  revert z. induction fuel as [|fuel IH]; intros z H k Hk; [lia|].
  simpl in H. apply andb_prop in H as [Hz Hrest].
  destruct (Z.eq_dec k z) as [->|Hne]; [done|].
  apply (IH _ Hrest). lia.
Qed.

Lemma divisors_positive_checked : F64.divisors_positive F64.checked_counts = true.
Proof. vm_compute. reflexivity. Qed.

Lemma divisor_positive (n : nat) :
  2 ≤ n → (Z.of_nat n ≤ F64.checked_counts)%Z →
  PrimFloat.ltb PrimFloat.zero (PrimFloat.sub (F64.of_nat n) (F64.of_nat 1)) = true.
Proof.
  intros Hn Hbound. pose proof divisors_positive_checked as H.
  unfold F64.divisors_positive in H.
  apply (all_from_spec _ _ _ H (Z.of_nat n)).
  unfold F64.checked_counts in *. lia.
Qed.

Lemma reduce_add_zeros (n : nat) :
  F64.reduce_add (replicate n PrimFloat.zero) = PrimFloat.zero.
Proof.
  destruct n as [|n]; [reflexivity|]. simpl.
  induction n as [|n IH]; [reflexivity|]. simpl.
  by change (PrimFloat.add PrimFloat.zero PrimFloat.zero) with PrimFloat.zero.
Qed.

Lemma notna_id (xs : list float) :
  Forall (λ v, PrimFloat.is_nan v = false) xs → F64.notna xs = xs.
Proof.
  unfold F64.notna. induction 1 as [|v xs Hv _ IH]; [reflexivity|].
  simpl. by rewrite Hv, IH.
Qed.

Lemma fill0_id (xs : list float) :
  Forall (λ v, PrimFloat.is_nan v = false) xs → F64.fill0 xs = xs.
Proof.
  unfold F64.fill0. induction 1 as [|v xs Hv _ IH]; [reflexivity|].
  simpl. by rewrite Hv, IH.
Qed.

Lemma notna_length (xs : list float) : length (F64.notna xs) ≤ length xs.
Proof. apply List.filter_length_le. Qed.

(** Without missing values [std] is the square root of the summed squared
    deviations from the mean over [n - 1]. *)
Lemma std_sample_formula (xs : list float) :
  Forall (λ v, PrimFloat.is_nan v = false) xs →
  2 ≤ length xs →
  F64.std xs
  = PrimFloat.sqrt
      (PrimFloat.div
         (F64.reduce_add (map (λ v, F64.square (PrimFloat.sub (F64.mean xs) v)) xs))
         (PrimFloat.sub (F64.of_nat (length xs)) (F64.of_nat 1))).
Proof.
  intros Hxs Hlen. unfold F64.std, F64.var, F64.mean.
  rewrite notna_id, fill0_id by done.
  destruct (Nat.leb_spec (length xs) 1) as [|_]; [lia|].
  destruct (Nat.eqb_spec (length xs) 0) as [|_]; [lia|].
  do 3 f_equal. apply map_ext_in. intros v Hv.
  rewrite Forall_forall in Hxs. by rewrite Hxs by by apply list_elem_of_In.
Qed.

(** A single present sample leaves the divisor undefined. *)
Lemma std_single (xs : list float) : length xs = 1 → F64.std xs = PrimFloat.nan.
Proof.
  intros Hlen. unfold F64.std, F64.var.
  pose proof (notna_length xs).
  destruct (Nat.leb_spec (length (F64.notna xs)) 1) as [_|]; [|lia].
  by rewrite div_nan_r.
Qed.

(** Identical samples have deviation +0 as soon as their mean is exact. *)
Lemma std_constant (c : float) (n : nat) :
  2 ≤ n → (Z.of_nat n ≤ F64.checked_counts)%Z →
  PrimFloat.is_finite c = true →
  F64.mean (replicate n c) = c →
  F64.std (replicate n c) = PrimFloat.zero.
Proof.
  intros Hn Hbound Hc Hmean.
  assert (Forall (λ v, PrimFloat.is_nan v = false) (replicate n c)) as Hxs.
  { apply Forall_replicate. by apply is_finite_not_nan. }
  rewrite std_sample_formula by (rewrite ?length_replicate; done || lia).
  rewrite Hmean, length_replicate.
  assert (map (λ v, F64.square (PrimFloat.sub c v)) (replicate n c)
          = replicate n PrimFloat.zero) as ->.
  { clear Hn Hbound Hmean Hxs. induction n as [|n IH]; [reflexivity|].
    simpl. rewrite IH, sub_diag by done. reflexivity. }
  rewrite reduce_add_zeros, div_zero_pos by by apply divisor_positive.
  reflexivity.
Qed.

End Binary64.

(** * preprocessor.py: the feature vector of a window *)

Section Features.

Import preprocessor.




End Features.

(** * Lists built by comprehensions that may raise *)

Section MapResult.

Context {A B : Type} (f : A → result B).

Lemma map_result_ok (l : list A) (bs : list B) :
  map_result f l = Ok bs ↔ Forall2 (λ a b, f a = Ok b) l bs.
Proof.
  revert bs. induction l as [|a l IH]; intros bs; simpl.
  - split.
    + intros [= <-]. constructor.
    + by inversion 1.
  - destruct (f a) as [b|e] eqn:Hfa.
    + destruct (map_result f l) as [bs'|e] eqn:Hl.
      * split.
        -- intros [= <-]. constructor; [done|]. by apply IH.
        -- inversion 1 as [|? b' ? bs'' Hb Hrest]; subst.
           apply IH in Hrest. congruence.
      * split; [discriminate|].
        inversion 1 as [|? b' ? bs'' Hb Hrest]; subst.
        apply IH in Hrest. congruence.
    + split; [discriminate|]. inversion 1; congruence.
Qed.

Lemma map_result_total (l : list A) :
  Forall (λ a, ∃ b, f a = Ok b) l → ∃ bs, map_result f l = Ok bs.
Proof.
  induction 1 as [|a l [b Hb] _ [bs Hbs]]; simpl.
  - by exists [].
  - exists (b :: bs). by rewrite Hb, Hbs.
Qed.

Lemma map_result_length (l : list A) (bs : list B) :
  map_result f l = Ok bs → length bs = length l.
Proof. intros H%map_result_ok. symmetry. by eapply Forall2_length. Qed.

End MapResult.

(** * np.linspace *)

Section Linspace.

Variables (stop num : Z).
Hypothesis stop_nonneg : (0 ≤ stop)%Z.
Hypothesis num_pos : (0 < num)%Z.

Lemma linspace_int_ok :
  np.linspace_int stop num = Ok (map (np.sample stop num) (seq 0 (Z.to_nat num))).
Proof.
  unfold np.linspace_int. destruct (Z.ltb_spec num 0); [lia | done].
Qed.

Lemma sample_first : np.sample stop num 0 = 0%Z.
Proof.
  unfold np.sample.
  destruct (Z.ltb_spec 1 num); destruct (Z.eqb_spec (Z.of_nat 0) (num - 1));
    simpl; rewrite ?Zdiv_0_l; lia.
Qed.

Lemma sample_uniform (i : nat) :
  (1 < num)%Z → np.sample stop num i = (Z.of_nat i * stop / (num - 1))%Z.
Proof.
  intros Hnum. unfold np.sample.
  destruct (Z.ltb_spec 1 num); [|lia].
  destruct (Z.eqb_spec (Z.of_nat i) (num - 1)) as [->|]; simpl; [|done].
  rewrite Z.mul_comm, Z.div_mul; lia.
Qed.

Lemma sample_last : (1 < num)%Z → np.sample stop num (Z.to_nat (num - 1)) = stop.
Proof.
  intros Hnum. unfold np.sample.
  destruct (Z.ltb_spec 1 num); [|lia].
  destruct (Z.eqb_spec (Z.of_nat (Z.to_nat (num - 1))) (num - 1)); simpl; [done | lia].
Qed.

Lemma sample_range (i : nat) :
  (Z.of_nat i < num)%Z → (0 ≤ np.sample stop num i ≤ stop)%Z.
Proof.
  intros Hi. unfold np.sample.
  destruct (Z.ltb_spec 1 num) as [Hnum|Hnum];
    destruct (Z.eqb_spec (Z.of_nat i) (num - 1)) as [Heq|Hne]; simpl; try lia.
  - split; [apply Z.div_pos; lia|].
    apply Z.div_le_upper_bound; [lia|]. nia.
  - assert (i = 0) as -> by lia. by rewrite Z.mul_0_l, Zdiv_0_l.
Qed.

Lemma sample_mono (i j : nat) :
  i ≤ j → (Z.of_nat j < num)%Z → (np.sample stop num i ≤ np.sample stop num j)%Z.
Proof.
  intros Hij Hj. destruct (Z_lt_le_dec 1 num) as [Hnum|Hnum].
  - rewrite !sample_uniform by done.
    apply Z.div_le_mono; [lia | nia].
  - assert (i = 0 ∧ j = 0) as [-> ->] by lia. done.
Qed.

(** With fewer source positions than samples the second sample is the
    first position again. *)
Lemma sample_repeats : (stop + 1 < num)%Z → np.sample stop num 1 = 0%Z.
Proof.
  intros Hfew. rewrite sample_uniform by lia.
  apply Z.div_small. lia.
Qed.

End Linspace.

(** ** The binary64 evaluation, checked on a grid *)

(** For the default of 32 frames the binary64 samples are the exact ones,
    whatever the number of source frames up to 1024. *)
Lemma linspace_f64_default_checked :
  F64.all_from 1024 0
    (λ stop, bool_decide (np.linspace_f64 stop 32
                          = map (np.sample stop 32) (seq 0 32))) = true.
Proof. vm_compute. reflexivity. Qed.

Lemma linspace_f64_default (total_frames : Z) :
  (1 ≤ total_frames ≤ 1024)%Z →
  Ok (np.linspace_f64 (total_frames - 1) 32) = np.linspace_int (total_frames - 1) 32.
Proof.
  intros HT.
  pose proof (all_from_spec _ _ _ linspace_f64_default_checked (total_frames - 1)%Z) as H.
  cbv beta in H. rewrite bool_decide_eq_true in H. rewrite H by lia. reflexivity.
Qed.

(** For other frame counts the binary64 product can fall just below the
    integer the exact sample reaches; the indices keep their order and
    their bounds. Checked for up to 100 source frames and up to 40
    requested frames. *)
Lemma linspace_f64_spacing_checked :
  F64.all_from 100 0
    (λ stop, F64.all_from 40 1
       (λ num, np.well_spaced stop num (np.linspace_f64 stop num))) = true.
Proof. vm_compute. reflexivity. Qed.

Lemma linspace_f64_spacing (total_frames num : Z) :
  (1 ≤ total_frames ≤ 100)%Z → (1 ≤ num ≤ 40)%Z →
  np.well_spaced (total_frames - 1) num (np.linspace_f64 (total_frames - 1) num) = true.
Proof.
  intros HT Hnum.
  pose proof (all_from_spec _ _ _ linspace_f64_spacing_checked (total_frames - 1)%Z) as H.
  cbv beta in H. apply (all_from_spec _ _ _ (H ltac:(lia)) num). lia.
Qed.

Remark linspace_f64_below_exact :
  np.sample_f64 30 23 11 = 14%Z ∧ np.sample 30 23 11 = 15%Z.
Proof. split; vm_compute; reflexivity. Qed.


(** * preprocessor.py: frame sampling *)

Section Frames.

Import preprocessor.

Lemma listdir_isdir (fs : node) (p : path) (names : list string) :
  os.listdir fs p = Ok names → os.isdir fs p = true.
Proof.
  unfold os.listdir, os.isdir. destruct (resolve fs p) as [[]|]; done.
Qed.

Lemma isdir_listdir (fs : node) (p : path) :
  os.isdir fs p = true → ∃ names, os.listdir fs p = Ok names.
Proof.
  unfold os.listdir, os.isdir. destruct (resolve fs p) as [[]|]; [done| eauto |done].
Qed.

Lemma getitem_lookup {A : Type} (l : list A) (i : Z) :
  (0 ≤ i < Z.of_nat (length l))%Z →
  ∃ a, Py.getitem l i = Ok a ∧ l !! Z.to_nat i = Some a.
Proof.
  intros Hi. unfold Py.getitem.
  destruct (Z.ltb_spec i 0); [lia|].
  destruct (Z.ltb_spec i 0); [lia|].
  destruct (Z.leb_spec (Z.of_nat (length l)) i); [lia|]. simpl.
  destruct (l !! Z.to_nat i) as [a|] eqn:Ha; [eauto|].
  apply lookup_ge_None in Ha. lia.
Qed.

Lemma getitem_ok_lookup {A : Type} (l : list A) (i : Z) (a : A) :
  (0 ≤ i)%Z → Py.getitem l i = Ok a → l !! Z.to_nat i = Some a.
Proof.
  intros Hi. unfold Py.getitem.
  destruct (Z.ltb_spec i 0); [lia|].
  destruct (_ || _); [discriminate|].
  destruct (l !! Z.to_nat i); [by intros [= ->] | discriminate].
Qed.

(** The loop over the selected files appends one frame per file. *)
Lemma load_frames_ok (fs : node) (target_size : Z * Z)
    (selected : list path) (acc frames : list cv2.frame) :
  map_result (load fs target_size) selected = Ok frames →
  for_each selected (load_frame fs target_size) acc = Py [] (Ok (acc ++ frames)).
Proof.
  revert acc frames. induction selected as [|f selected IH]; intros acc frames; simpl.
  - intros [= <-]. by rewrite app_nil_r.
  - destruct (load fs target_size f) as [fr|e] eqn:Hf; [|discriminate].
    destruct (map_result _ selected) as [frames'|e] eqn:Hrest; [|discriminate].
    intros [= <-]. unfold load_frame. rewrite Hf, bind_ok, bind_ret.
    rewrite (IH _ frames') by done. by rewrite <- app_assoc.
Qed.

Lemma process_image_sequence_unfold
    (fs : node) (dir_path : path) (names names' : list string)
    (num_frames : Z) (target_size : Z * Z)
    (indices : list Z) (selected : list path) (frames : list cv2.frame) :
  os.listdir fs dir_path = Ok names →
  os.listdir fs (final_dir fs dir_path (visible names)) = Ok names' →
  frame_files_in (final_dir fs dir_path (visible names)) names' ≠ [] →
  np.linspace_int
    (Z.of_nat (length (frame_files_in (final_dir fs dir_path (visible names)) names')) - 1)
    num_frames = Ok indices →
  map_result
    (Py.getitem (frame_files_in (final_dir fs dir_path (visible names)) names'))
    indices = Ok selected →
  map_result (load fs target_size) selected = Ok frames →
  process_image_sequence fs dir_path num_frames target_size = Py [] (Ok frames).
Proof.
  intros Hnames Hnames' Hfiles Hidx Hsel Hframes. unfold process_image_sequence.
  rewrite (listdir_isdir _ _ _ Hnames). cbn [negb].
  rewrite Hnames, bind_ok. cbv zeta. rewrite Hnames', bind_ok.
  destruct (Nat.eqb_spec (length (frame_files_in
              (final_dir fs dir_path (visible names)) names')) 0) as [H0|_].
  { by apply length_zero_iff_nil in H0. }
  rewrite Hidx, bind_ok, Hsel, bind_ok.
  by rewrite (load_frames_ok _ _ _ [] frames).
Qed.




(** C6, evaluated where the code departs from it: the first listing drops
    dot-prefixed names; the frame listing keeps any name with an image
    suffix, dot-prefixed or not, and such a file is sampled as a frame. *)
Lemma hidden_image_is_sampled :
  os.listdir samples.hidden_frame ["rgb"] = Ok samples.hidden_names
  ∧ visible samples.hidden_names = ["0002.png"; "0001.png"]
  ∧ frame_files_in ["rgb"] samples.hidden_names
    = [ ["rgb"; "._0001.png"]; ["rgb"; "0001.png"]; ["rgb"; "0002.png"] ]
  ∧ process_image_sequence samples.hidden_frame ["rgb"] 3 (128, 128)%Z
    = Py [] (Ok [samples.resized 0; samples.resized 1; samples.resized 2]).
Proof. repeat split; vm_compute; reflexivity. Qed.

(** The entries kept by the first listing do not start with a dot. *)
Lemma visible_not_hidden (names : list string) :
  Forall (λ item, Py.startswith item "." = false) (visible names).
Proof.
  apply Forall_forall. intros item Hitem%list_elem_of_In.
  apply filter_In in Hitem as [_ Hitem]. by apply negb_true_iff.
Qed.

(** The directory listed for frames is the given one or a directory
    directly inside it: the function descends at most one level, and only
    into the single visible entry. *)
Lemma final_dir_one_level (fs : node) (dir_path : path) (names : list string) :
  final_dir fs dir_path (visible names) = dir_path
  ∨ ∃ item, visible names = [item]
            ∧ os.isdir fs (join dir_path [item]) = true
            ∧ final_dir fs dir_path (visible names) = join dir_path [item].
Proof.
  unfold final_dir. destruct (visible names) as [|item [|]]; auto.
  destruct (os.isdir fs (join dir_path [item])) eqn:Hdir; eauto.
Qed.

End Frames.

(** * dataloader.py: the summary of an event's windows *)

Section Summary.

Import preprocessor dataloader.

Lemma row_add_length (a b : list float) (n : nat) :
  length a = n → length b = n → length (F64.row_add a b) = n.
Proof. intros Ha Hb. unfold F64.row_add. rewrite length_zip_with. lia. Qed.

Lemma row_add_nth (a b : list float) (j : nat) :
  j < length a → j < length b →
  nth j (F64.row_add a b) PrimFloat.nan
  = PrimFloat.add (nth j a PrimFloat.nan) (nth j b PrimFloat.nan).
Proof.
  intros Ha Hb. unfold F64.row_add. rewrite !nth_lookup, lookup_zip_with.
  apply lookup_lt_is_Some in Ha as [x ->], Hb as [y ->]. reflexivity.
Qed.

(** Adding rows one after the other adds each column from left to right. *)
Lemma fold_row_add_nth (rows : list (list float)) (r : list float) (n j : nat) :
  Forall (λ v, length v = n) (r :: rows) → j < n →
  length (fold_left F64.row_add rows r) = n
  ∧ nth j (fold_left F64.row_add rows r) PrimFloat.nan
    = fold_left PrimFloat.add (map (λ v, nth j v PrimFloat.nan) rows)
                (nth j r PrimFloat.nan).
Proof.
  revert r. induction rows as [|r' rows IH]; intros r Hall Hj; simpl.
  - by apply Forall_cons in Hall as [Hr _].
  - apply Forall_cons in Hall as [Hr [Hr' Hrows]%Forall_cons].
    rewrite <- row_add_nth by lia. apply IH; [|done].
    apply Forall_cons. split; [by apply row_add_length | done].
Qed.

Lemma mean_axis0_elementwise (rows : list (list float)) (n j : nat) :
  rows ≠ [] → Forall (λ v, length v = n) rows → j < n →
  length (F64.mean_axis0 rows) = n
  ∧ F64.mean_axis0 rows !! j = Some (elementwise_mean rows j).
Proof.
  destruct rows as [|r rows]; [done|]. intros _ Hall Hj.
  destruct (fold_row_add_nth rows r n j Hall Hj) as [Hlen Hnth].
  unfold F64.mean_axis0, elementwise_mean. rewrite length_map. split; [done|].
  change (map ?f ?l !! j) with ((f <$> l) !! j).
  rewrite list_lookup_fmap. rewrite nth_lookup in Hnth.
  destruct (fold_left F64.row_add rows r !! j) as [x|] eqn:Hx.
  - simpl in *. by rewrite Hnth.
  - apply lookup_ge_None in Hx. lia.
Qed.

(** Every row the accelerometer function returns has the eight fields. *)
Lemma process_accelerometer_data_rows
    (fs : node) (file_path : path) (window_size step : Z) (windows : list (list float)) :
  outcome (process_accelerometer_data fs file_path window_size step) = Ok windows →
  Forall (λ v, length v = 8) windows.
Proof.
  unfold process_accelerometer_data. destruct (negb _).
  - intros [= <-]. constructor.
  - intros (df & _ & H)%bind_outcome_ok.
    apply bind_outcome_ok in H as (cols & _ & H).
    apply bind_outcome_ok in H as (s & _ & H).
    apply bind_outcome_ok in H as (starts & _ & H).
    injection H as <-. apply Forall_forall. intros v Hv%list_elem_of_In.
    by apply in_map_iff in Hv as (i & <- & _).
Qed.

(** No window is emitted when the table is not longer than one window. *)
Lemma no_window_when_short
    (fs : node) (file_path : path) (df : DataFrame)
    (window_size step : Z) (windows : list (list float)) :
  pd.read_csv fs file_path = Ok df →
  (Z.of_nat (nrows df) ≤ window_size)%Z → (0 < step)%Z →
  outcome (process_accelerometer_data fs file_path window_size step) = Ok windows →
  windows = [].
Proof.
  intros Hread Hshort Hstep. unfold process_accelerometer_data.
  rewrite (read_csv_exists _ _ _ Hread). cbn [negb]. rewrite Hread, bind_ok.
  intros (cols & _ & H)%bind_outcome_ok.
  apply bind_outcome_ok in H as (s & _ & H).
  rewrite range_positive_step, remaining_done, bind_ok in H by lia.
  by injection H as <-.
Qed.

Lemma generate_event_accel
    (fs : node) (self : FallDetectionDataGenerator)
    (i : nat) (folder_name : string) (a a' : arrays) :
  outcome (generate_event fs self (i, folder_name) a) = Ok a' →
  ∃ (label : Z) (windows : list (list float)),
    labels self !! folder_name = Some label
    ∧ outcome (process_accelerometer_data fs (accel_path self label folder_name)
                 (accel_window_size self) (accel_step self)) = Ok windows
    ∧ X_accel a' = X_accel a ++ [accel_summary windows].
Proof.
  unfold generate_event. intros (label & Hlabel & H)%bind_outcome_ok.
  exists label. destruct (labels self !! folder_name) as [l|]; [|discriminate].
  injection Hlabel as ->.
  apply bind_outcome_ok in H as (frames & _ & H).
  apply bind_outcome_ok in H as (images & _ & H).
  apply bind_outcome_ok in H as (windows & Hwindows & H).
  apply bind_outcome_ok in H as (labels' & _ & H).
  injection H as <-. exists windows. by split; [|split].
Qed.

(** C7: the summary appended for an event is the elementwise mean of the
    event's window feature vectors when there is at least one window, and
    the all-zero 8-vector when there is none, which is the case when the
    accelerometer file is missing, has no row, or is not longer than one
    window. *)
Theorem event_accelerometer_summary
    (fs : node) (self : FallDetectionDataGenerator)
    (i : nat) (folder_name : string) (a a' : arrays) :
  outcome (generate_event fs self (i, folder_name) a) = Ok a' →
  ∃ (label : Z) (windows : list (list float)),
    labels self !! folder_name = Some label
    ∧ outcome (process_accelerometer_data fs (accel_path self label folder_name)
                 (accel_window_size self) (accel_step self)) = Ok windows
    ∧ X_accel a' = X_accel a ++ [accel_summary windows]
    ∧ (windows ≠ [] →
       length (accel_summary windows) = 8
       ∧ ∀ j, j < 8 → accel_summary windows !! j = Some (elementwise_mean windows j))
    ∧ (windows = [] → accel_summary windows = replicate 8 PrimFloat.zero)
    ∧ (os.exists_ fs (accel_path self label folder_name) = false → windows = [])
    ∧ (∀ df, pd.read_csv fs (accel_path self label folder_name) = Ok df →
             (Z.of_nat (nrows df) ≤ accel_window_size self)%Z →
             (0 < accel_step self)%Z → windows = []).
Proof.
  intros (label & windows & Hlabel & Hwindows & Happend)%generate_event_accel.
  exists label, windows. split; [done|]. split; [done|]. split; [done|].
  split; [|split; [|split]].
  - intros Hne. pose proof (process_accelerometer_data_rows _ _ _ _ _ Hwindows) as Hrows.
    assert (accel_summary windows = F64.mean_axis0 windows) as ->.
    { unfold accel_summary. by destruct windows. }
    split.
    + apply (mean_axis0_elementwise windows 8 0 Hne Hrows). lia.
    + intros j Hj. by apply (mean_axis0_elementwise windows 8 j Hne Hrows).
  - by intros ->.
  - intros Hmissing. unfold process_accelerometer_data in Hwindows.
    rewrite Hmissing in Hwindows. by injection Hwindows as <-.
  - intros df Hread Hshort Hstep. by eapply no_window_when_short.
Qed.

Lemma event_accelerometer_summary_witness :
  ∃ (label : Z) (windows : list (list float)),
    dataloader.labels (samples.generator ["fall-01"; "adl-02"] 2 false) !! "fall-01"
    = Some label
    ∧ X_accel samples.first_event_arrays = [] ++ [accel_summary windows].
Proof.
  destruct (event_accelerometer_summary samples.dataset
              (samples.generator ["fall-01"; "adl-02"] 2 false)
              0 "fall-01" (samples.empty_arrays 2) samples.first_event_arrays)
    as (label & windows & Hlabel & _ & Happend & _).
  - vm_compute. reflexivity.
  - exists label, windows. split; [exact Hlabel | exact Happend].
Defined.

(** ** A missing modality *)

Lemma missing_directory_returns_empty
    (fs : node) (dir_path : path) (num_frames : Z) (target_size : Z * Z) :
  os.isdir fs dir_path = false →
  process_image_sequence fs dir_path num_frames target_size
  = Py ["Directory not found: " +:+ path_str dir_path] (Ok []).
Proof. intros H. unfold process_image_sequence. by rewrite H. Qed.

(** An empty frame sequence cannot be stored in the event's row of
    [X_images]: the assignment raises and the batch is lost. *)
Lemma empty_frames_abort_event
    (fs : node) (self : FallDetectionDataGenerator)
    (i : nat) (folder_name : string) (a : arrays) (label : Z) :
  labels self !! folder_name = Some label →
  outcome (process_image_sequence fs (image_path self label folder_name)
             (n_frames self) (image_dim self)) = Ok [] →
  n_channels self ≠ 0%Z →
  outcome (generate_event fs self (i, folder_name) a)
  = Raise (if (i <? length (X_images a))%nat then ValueError else IndexError).
Proof.
  intros Hlabel Hframes Hchannels. unfold generate_event.
  rewrite Hlabel, bind_ok.
  erewrite bind_outcome; [|exact Hframes].
  assert (np.broadcastable (np.array_shape cv2.frame_shape [])
            [n_frames self; (image_dim self).1; (image_dim self).2; n_channels self]
          = false) as ->.
  { unfold np.broadcastable. simpl.
    by destruct (n_channels self). }
  by destruct (i <? length (X_images a))%nat.
Qed.

(** C4, evaluated where the code departs from it: in the batch [fall-01],
    [adl-01], where [adl-01] has no frame directory, [__data_generation]
    ends in a ValueError. The batch [fall-01], [adl-02],
    where [adl-02] has no accelerometer file, is produced, with the
    all-zero summary for [adl-02]. *)
Lemma missing_frame_directory_aborts_batch :
  os.isdir samples.dataset ["data"; "adls"; "adl-01"; "cam0"; "rgb"] = false
  ∧ data_generation samples.dataset
      (samples.generator ["fall-01"; "adl-01"] 2 false) ["fall-01"; "adl-01"]
    = Py ["Directory not found: data/adls/adl-01/cam0/rgb"] (Raise ValueError)
  ∧ ∃ a,
      data_generation samples.dataset
        (samples.generator ["fall-01"; "adl-02"] 2 false) ["fall-01"; "adl-02"]
      = Py ["File not found: data/adls/adl-02/acc/adl-02-acc.csv"] (Ok a)
      ∧ X_accel a !! 1 = Some (replicate 8 PrimFloat.zero).
Proof.
  split; [reflexivity|]. split; [vm_compute; reflexivity|].
  eexists. split; [vm_compute; reflexivity | reflexivity].
Qed.

End Summary.

(** * dataloader.py: the index permutation and the batches of an epoch *)

Section Scheduler.

Import dataloader.

Lemma swap_permutation {A : Type} (x : list A) (i j : nat) : random.swap x i j ≡ₚ x.
Proof.
  unfold random.swap.
  destruct (x !! i) as [a|] eqn:Hi; [|done].
  destruct (x !! j) as [b|] eqn:Hj; [|done].
  by apply Permutation_insert_swap.
Qed.

Lemma shuffle_from_permutation {A : Type} (i : nat) (x : list A) (rs : random.RandomState) :
  (random.shuffle_from i x rs).1 ≡ₚ x.
Proof.
  revert x rs. induction i as [|i IH]; intros x rs; simpl; [done|].
  rewrite IH. apply swap_permutation.
Qed.

(** Shuffling rearranges the list: nothing is added and nothing dropped. *)
Lemma shuffle_permutation {A : Type} (x : list A) (rs : random.RandomState) :
  (random.shuffle x rs).1 ≡ₚ x.
Proof. apply shuffle_from_permutation. Qed.

Lemma on_epoch_end_indexes (self : FallDetectionDataGenerator) (rs : random.RandomState) :
  indexes (on_epoch_end self rs).1 ≡ₚ indexes self.
Proof.
  unfold on_epoch_end. destruct (shuffle self); [|done].
  pose proof (shuffle_permutation (indexes self) rs) as H.
  by destruct (random.shuffle (indexes self) rs).
Qed.

Lemma on_epoch_end_frame (self : FallDetectionDataGenerator) (rs : random.RandomState) :
  event_folders (on_epoch_end self rs).1 = event_folders self
  ∧ batch_size (on_epoch_end self rs).1 = batch_size self.
Proof.
  unfold on_epoch_end. destruct (shuffle self); [|done].
  by destruct (random.shuffle (indexes self) rs).
Qed.

(** The invariant: [indexes] is a permutation of 0 .. N-1. *)
Lemma reachable_permutation (self : FallDetectionDataGenerator) :
  reachable self → indexes self ≡ₚ seq 0 (length (event_folders self)).
Proof.
  induction 1 as [data_dir event_folders labels batch_size image_dim n_channels
                    n_frames accel_window_size accel_step shuffle rs | self rs _ IH].
  - unfold init. rewrite on_epoch_end_indexes.
    by rewrite (proj1 (on_epoch_end_frame _ _)).
  - rewrite on_epoch_end_indexes. by rewrite (proj1 (on_epoch_end_frame _ _)).
Qed.

Lemma reachable_length (self : FallDetectionDataGenerator) :
  reachable self → length (indexes self) = length (event_folders self).
Proof.
  intros H%reachable_permutation. by rewrite H, length_seq.
Qed.

Lemma reachable_NoDup (self : FallDetectionDataGenerator) :
  reachable self → NoDup (indexes self).
Proof.
  intros H%reachable_permutation. rewrite H. apply NoDup_seq.
Qed.

Lemma reachable_bound (self : FallDetectionDataGenerator) (k : nat) :
  reachable self → k ∈ indexes self → k < length (event_folders self).
Proof.
  intros H%reachable_permutation. rewrite H. intros Hk%elem_of_seq. lia.
Qed.

Lemma slice_take_drop {A : Type} (l : list A) (lo hi : Z) :
  (0 ≤ lo ≤ hi)%Z → (hi ≤ Z.of_nat (length l))%Z →
  Py.slice l lo hi = take (Z.to_nat (hi - lo)) (drop (Z.to_nat lo) l).
Proof.
  intros Hlo Hhi. unfold Py.slice, Py.adjust_index.
  destruct (Z.ltb_spec lo 0); [lia|]. destruct (Z.ltb_spec hi 0); [lia|].
  by rewrite !Z.min_l by lia.
Qed.

(** Batch [index] is the [index]-th chunk of [batch_size] indexes. *)
Lemma batch_indexes_chunk (self : FallDetectionDataGenerator) (index : nat) :
  (0 < batch_size self)%Z →
  (index + 1) * Z.to_nat (batch_size self) ≤ length (indexes self) →
  batch_indexes self (Z.of_nat index)
  = take (Z.to_nat (batch_size self))
         (drop (index * Z.to_nat (batch_size self)) (indexes self)).
Proof.
  intros HB Hfit. unfold batch_indexes.
  rewrite slice_take_drop by nia. f_equal; [f_equal; lia | f_equal; nia].
Qed.

Lemma concat_chunks {A : Type} (l : list A) (b n : nat) :
  concat (map (λ i, take b (drop (i * b) l)) (seq 0 n)) = take (n * b) l.
Proof.
  induction n as [|n IH]; [done|].
  rewrite seq_S, map_app, concat_app, IH. simpl.
  rewrite app_nil_r, take_take_drop. f_equal. lia.
Qed.

Lemma whole_batches_fit (self : FallDetectionDataGenerator) :
  (0 < batch_size self)%Z →
  let N := Z.of_nat (length (event_folders self)) in
  (N / batch_size self * batch_size self ≤ N
   ∧ N < (N / batch_size self + 1) * batch_size self
   ∧ 0 ≤ N / batch_size self)%Z.
Proof.
  intros HB N.
  pose proof (Z.mul_div_le N (batch_size self) HB).
  pose proof (Z.mul_succ_div_gt N (batch_size self) HB).
  assert (0 ≤ N / batch_size self)%Z by (apply Z.div_pos; lia).
  lia.
Qed.

Lemma epoch_batches_chunks (self : FallDetectionDataGenerator) :
  reachable self → (0 < batch_size self)%Z →
  epoch_batches self
  = map (λ i, take (Z.to_nat (batch_size self))
                   (drop (i * Z.to_nat (batch_size self)) (indexes self)))
        (seq 0 (Z.to_nat (Z.of_nat (length (event_folders self)) / batch_size self))).
Proof.
  intros Hreach HB. unfold epoch_batches. apply map_ext_in. intros i Hi%in_seq.
  apply batch_indexes_chunk; [done|].
  rewrite (reachable_length _ Hreach).
  pose proof (whole_batches_fit self HB) as (Hfit & _ & _). simpl in Hfit. nia.
Qed.

(** The binary64 quotient has the floor of the exact one; checked for up
    to 1000 events and batch sizes up to 64. *)
Lemma len_f64_checked :
  F64.all_from 1001 0
    (λ N, F64.all_from 64 1
       (λ B, (F64.floor_Z (PrimFloat.div (F64.of_Z N) (F64.of_Z B)) =? N / B)%Z)) = true.
Proof. vm_compute. reflexivity. Qed.

Lemma len_f64_agrees (self : FallDetectionDataGenerator) :
  length (event_folders self) ≤ 1000 → (1 ≤ batch_size self ≤ 64)%Z →
  len_f64 self = len self.
Proof.
  intros HN HB. unfold len_f64, len.
  destruct (Z.eqb_spec (batch_size self) 0); [done|]. f_equal.
  pose proof (all_from_spec _ _ _ len_f64_checked
                (Z.of_nat (length (event_folders self))) ltac:(lia)) as H.
  cbv beta in H.
  apply Z.eqb_eq, (all_from_spec _ _ _ H (batch_size self)). lia.
Qed.





End Scheduler.

(** * The order of strings and [sorted] *)

Section StringOrder.

Lemma ascii_compare_refl (a : ascii) : Ascii.compare a a = Eq.
Proof. unfold Ascii.compare. apply N.compare_refl. Qed.

Lemma ascii_compare_eq (a b : ascii) : Ascii.compare a b = Eq → a = b.
Proof. apply Ascii.compare_eq_iff. Qed.

Lemma ascii_compare_lt_trans (a b c : ascii) :
  Ascii.compare a b = Lt → Ascii.compare b c = Lt → Ascii.compare a c = Lt.
Proof.
  unfold Ascii.compare. rewrite !N.compare_lt_iff. lia.
Qed.

Lemma string_compare_refl (s : string) : String.compare s s = Eq.
Proof.
  induction s as [|a s IH]; [done|]. simpl. by rewrite ascii_compare_refl.
Qed.

(** The comparison of strings is transitive on "not greater". *)
Lemma string_compare_trans (s t u : string) :
  String.compare s t ≠ Gt → String.compare t u ≠ Gt → String.compare s u ≠ Gt.
Proof.
  revert t u. induction s as [|a s IH]; intros [|b t] [|c u]; simpl; try done.
  destruct (Ascii.compare a b) eqn:Hab; [| |done].
  - apply ascii_compare_eq in Hab as ->.
    destruct (Ascii.compare b c) eqn:Hbc; [by apply IH | done | done].
  - destruct (Ascii.compare b c) eqn:Hbc; [| |done].
    + apply ascii_compare_eq in Hbc as ->. by rewrite Hab.
    + by rewrite (ascii_compare_lt_trans a b c).
Qed.

Lemma leb_compare (s t : string) : String.leb s t = true ↔ String.compare s t ≠ Gt.
Proof. unfold String.leb. destruct (String.compare s t); intuition congruence. Qed.

Lemma string_leb_refl (s : string) : String.leb s s = true.
Proof. apply leb_compare. by rewrite string_compare_refl. Qed.

Lemma string_leb_trans (s t u : string) :
  String.leb s t = true → String.leb t u = true → String.leb s u = true.
Proof. rewrite !leb_compare. apply string_compare_trans. Qed.

Lemma ltb_leb (s t : string) : String.ltb s t = true → String.leb s t = true.
Proof. unfold String.ltb, String.leb. by destruct (String.compare s t). Qed.

Lemma not_ltb_leb (s t : string) : String.ltb s t = false → String.leb t s = true.
Proof.
  unfold String.ltb, String.leb. rewrite (String.compare_antisym s t).
  by destruct (String.compare t s).
Qed.

Context {A : Type} (key : A → string).

Lemma insert_sorted_permutation (x : A) (l : list A) :
  Py.insert_sorted key x l ≡ₚ x :: l.
Proof.
  induction l as [|y l IH]; simpl; [done|].
  destruct (String.ltb (key x) (key y)); [done|].
  by rewrite IH, Permutation_swap.
Qed.

Lemma sorted_permutation (l : list A) : Py.sorted key l ≡ₚ l.
Proof.
  unfold Py.sorted. induction l as [|x l IH]; simpl; [done|].
  by rewrite insert_sorted_permutation, IH.
Qed.

Lemma insert_sorted_StronglySorted (x : A) (l : list A) :
  StronglySorted (λ a b, String.leb (key a) (key b) = true) l →
  StronglySorted (λ a b, String.leb (key a) (key b) = true) (Py.insert_sorted key x l).
Proof.
  induction 1 as [|y l Hl IH Hy]; simpl.
  - repeat constructor.
  - destruct (String.ltb (key x) (key y)) eqn:Hxy.
    + constructor; [by constructor|].
      constructor; [by apply ltb_leb|].
      eapply Forall_impl; [exact Hy|]. simpl. intros z Hz.
      eapply string_leb_trans; [by apply ltb_leb | done].
    + constructor; [done|].
      rewrite insert_sorted_permutation. constructor; [by apply not_ltb_leb | done].
Qed.

Lemma sorted_StronglySorted (l : list A) :
  StronglySorted (λ a b, String.leb (key a) (key b) = true) (Py.sorted key l).
Proof.
  unfold Py.sorted. induction l as [|x l IH]; simpl; [constructor|].
  by apply insert_sorted_StronglySorted.
Qed.

End StringOrder.
